(** * fake-news-backend: the analysis endpoint and the history endpoints

    A shallow embedding of [src/index.js].  The Express handlers and
    [analyzeText] are written as programs of a small state-and-exception
    monad over a [World] that holds what lies outside the file: the reply
    of the Gemini model to a prompt, the behaviour of the MongoDB
    collection, the clock and the console.  [JSON.parse] is a parameter of
    the development (a Section variable): every theorem holds for whatever
    function from texts to values the engine implements.  A reference
    reader of the JSON grammar is given for the worked examples. *)

From Stdlib Require Import QArith Qround Lqa Ascii String Lia.
From stdpp Require Import gmap list strings sorting.

Set Warnings "-register-all".

(** ** JavaScript strings

    A string is its sequence of UTF-16 code units; [length] is the
    source's [.length]. *)

Abbreviation jsstring := (list N) (only parsing).

(** A literal of the source, all of whose characters are ASCII. *)
Definition js (s : string) : jsstring :=
  (λ a, N_of_ascii a) <$> list_ascii_of_string s.

(** WhiteSpace and LineTerminator of ECMAScript, the code units that
    [String.prototype.trim] strips. *)
Definition is_white_space (c : N) : bool :=
  ((9 <=? c) && (c <=? 13) || (c =? 32) || (c =? 0xA0) || (c =? 0x1680)
   || (0x2000 <=? c) && (c <=? 0x200A)
   || (c =? 0x2028) || (c =? 0x2029) || (c =? 0x202F) || (c =? 0x205F)
   || (c =? 0x3000) || (c =? 0xFEFF))%N.

Fixpoint trimStart (s : jsstring) : jsstring :=
  match s with
  | c :: rest => if is_white_space c then trimStart rest else s
  | [] => []
  end.

Definition trimEnd (s : jsstring) : jsstring := reverse (trimStart (reverse s)).

(** [s.trim()] *)
Definition trim (s : jsstring) : jsstring := trimEnd (trimStart s).

Definition code_unit_eqb (a b : N) : bool := (a =? b)%N.

(** [s.startsWith(p)] *)
Fixpoint startsWith (p s : jsstring) : bool :=
  match p, s with
  | [], _ => true
  | a :: p', b :: s' => code_unit_eqb a b && startsWith p' s'
  | _ :: _, [] => false
  end.

Definition open_brace : N := 123.
Definition close_brace : N := 125.

(** ** The regular expression [/{[\s\S]*}/]

    [any_star_close s] runs the tail [[\s\S]*}] of the pattern at the head
    of [s] the way a backtracking matcher does: the star is greedy, so it
    first takes one more code unit and tries the rest; when that fails it
    stops iterating and the closing brace has to be right here.  The
    result is the matched text. *)
Fixpoint any_star_close (s : jsstring) : option jsstring :=
  match s with
  | [] => None
  | c :: rest =>
      match any_star_close rest with
      | Some m => Some (c :: m)
      | None => if code_unit_eqb c close_brace then Some [c] else None
      end
  end.

(** The whole pattern anchored at the head of [s]. *)
Definition braces_here (s : jsstring) : option jsstring :=
  match s with
  | c :: rest =>
      if code_unit_eqb c open_brace then cons c <$> any_star_close rest
      else None
  | [] => None
  end.

(** [rawText.match(/{[\s\S]*}/)]: the start positions are tried from left
    to right; the result is [jsonMatch[0]], or [None] for [null]. *)
Fixpoint match_braces (s : jsstring) : option jsstring :=
  match s with
  | [] => None
  | _ :: rest =>
      match braces_here s with
      | Some m => Some m
      | None => match_braces rest
      end
  end.

(** The extractor as the specification words it: the span from the first
    opening brace through the last closing brace. *)
Definition first_index (c : N) (s : jsstring) : option nat :=
  fst <$> list_find (λ x, x = c) s.

Definition last_index (c : N) (s : jsstring) : option nat :=
  (λ i, length s - 1 - i) <$> first_index c (reverse s).

Definition slice (i j : nat) (s : jsstring) : jsstring := take (j - i) (drop i s).

Definition first_to_last_brace (s : jsstring) : option jsstring :=
  i ← first_index open_brace s;
  j ← last_index close_brace s;
  if decide (i < j) then Some (slice i (S j) s) else None.

(** ** Numbers and values

    The values are those [JSON.parse] and [express.json()] produce, plus
    [undefined] for an absent property.  A number is a finite double, taken
    as the rational it denotes, or an infinity (the reading of an oversized
    literal); [NaN] is not a value of JSON. *)

Inductive number :=
| Finite (q : Q)
| PosInfinity
| NegInfinity.

(** [a < b] *)
Definition number_ltb (a b : number) : bool :=
  match a, b with
  | Finite p, Finite q => negb (Qle_bool q p)
  | Finite _, PosInfinity | NegInfinity, Finite _ | NegInfinity, PosInfinity => true
  | _, _ => false
  end.

Definition of_Z (z : Z) : number := Finite (inject_Z z).

(** [Math.round]: the nearest integer, a tie going up. *)
Definition Math_round (x : number) : number :=
  match x with
  | Finite q => of_Z (Qfloor (q + (1 # 2))%Q)
  | _ => x
  end.

Inductive value :=
| VUndefined
| VNull
| VBool (b : bool)
| VNum (n : number)
| VStr (s : jsstring)
| VArr (elements : list value)
| VObj (properties : gmap jsstring value).

(** ** Exceptions *)

Inductive ErrorKind := Error | TypeError | SyntaxError.

Record Exception := { kind : ErrorKind; message : jsstring }.

Definition new_Error (msg : string) : Exception :=
  {| kind := Error; message := js msg |}.

Definition new_TypeError (msg : string) : Exception :=
  {| kind := TypeError; message := js msg |}.

(** The outcome of evaluating an expression that may throw. *)
Inductive completion (A : Type) :=
| Normal (a : A)
| Throw (e : Exception).
Arguments Normal {A} a.
Arguments Throw {A} e.

#[global] Instance completion_ret : MRet completion := @Normal.
#[global] Instance completion_bind : MBind completion := λ A B f c,
  match c with
  | Normal a => f a
  | Throw e => Throw e
  end.

(** [v.k] for the property names the source reads ([title], [content],
    [isFake], [confidence], [features], [explanation]): none of them is a
    property of a primitive, of an array or of [Object.prototype]. *)
Definition get (v : value) (k : string) : completion value :=
  match v with
  | VUndefined => Throw (new_TypeError "Cannot read properties of undefined")
  | VNull => Throw (new_TypeError "Cannot read properties of null")
  | VObj o => Normal (default VUndefined (o !! js k))
  | _ => Normal VUndefined
  end.

(** [v?.trim()], where [name] is the text of [v] in the source:
    [undefined] on a nullish [v], the trimmed text of a string; on any
    other value there is no callable [trim]. *)
Definition optional_trim (name : string) (v : value) : completion value :=
  match v with
  | VUndefined | VNull => Normal VUndefined
  | VStr s => Normal (VStr (trim s))
  | _ => Throw (new_TypeError (name ++ "?.trim is not a function"))
  end.

(** [f.trim()] on an element of [features]. *)
Definition call_trim (v : value) : completion jsstring :=
  match v with
  | VStr s => Normal (trim s)
  | VUndefined => Throw (new_TypeError "Cannot read properties of undefined")
  | VNull => Throw (new_TypeError "Cannot read properties of null")
  | _ => Throw (new_TypeError "f.trim is not a function")
  end.

Definition nonempty (s : jsstring) : bool :=
  match s with [] => false | _ :: _ => true end.

(** ToBoolean *)
Definition truthy (v : value) : bool :=
  match v with
  | VUndefined | VNull => false
  | VBool b => b
  | VNum (Finite q) => negb (Qeq_bool q 0%Q)
  | VNum _ => true
  | VStr s => nonempty s
  | VArr _ | VObj _ => true
  end.

(** ** The analysis result *)

Record Analysis := {
  isFake : bool;
  confidence : number;
  features : list jsstring;
  explanation : jsstring
}.

Definition fallback_message : jsstring :=
  js "The analysis service is currently experiencing issues. Please wait a moment and try again.".

(** The object the [catch] of [analyzeText] returns. *)
Definition degraded : Analysis := {|
  isFake := false;
  confidence := of_Z 0;
  features := [js "Error: Content analysis failed"];
  explanation := fallback_message
|}.

(** [features.map(f => f.trim())], which throws at the first element
    without a [trim]. *)
Fixpoint map_trim (l : list value) : completion (list jsstring) :=
  match l with
  | [] => Normal []
  | f :: rest =>
      match call_trim f with
      | Normal s =>
          match map_trim rest with
          | Normal ss => Normal (s :: ss)
          | Throw e => Throw e
          end
      | Throw e => Throw e
      end
  end.

(** Lines 124-145: the strict validation of the parsed reply and the
    object returned for it. *)
Definition validate (analysis : value) : completion Analysis :=
  isFake_v ← get analysis "isFake";
  match isFake_v with
  | VBool b =>
      confidence_v ← get analysis "confidence";
      match confidence_v with
      | VNum c =>
          if number_ltb c (of_Z 0) || number_ltb (of_Z 100) c
          then Throw (new_Error "Invalid confidence score")
          else
            features_v ← get analysis "features";
            match features_v with
            | VArr ((_ :: _) as fs) =>
                explanation_v ← get analysis "explanation";
                match explanation_v with
                | VStr e =>
                    if nonempty (trim e) then
                      trimmed ← map_trim fs;
                      Normal {| isFake := b;
                                confidence := Math_round c;
                                features := filter (λ f, nonempty f = true) trimmed;
                                explanation := trim e |}
                    else Throw (new_Error "No explanation provided")
                | _ => Throw (new_Error "No explanation provided")
                end
            | _ => Throw (new_Error "No analysis features found")
            end
      | _ => Throw (new_Error "Invalid confidence score")
      end
  | _ => Throw (new_Error "Invalid analysis result")
  end.

(** ** The prompt (lines 75-100) *)

Definition nl : jsstring := [10%N].
Definition quoted (s : string) : jsstring := [34%N] ++ js s ++ [34%N].
Definition line (indent : nat) (text : jsstring) : jsstring :=
  nl ++ replicate indent 32%N ++ text.

Definition build_prompt (title content : jsstring) : jsstring :=
  js "You are a fact-checking expert. Analyze this news article for authenticity."
  ++ nl
  ++ line 8 (js "Title: " ++ title)
  ++ line 8 (js "Content: " ++ content)
  ++ nl
  ++ line 8 (js "Analyze for:")
  ++ line 8 (js "1. Factual accuracy")
  ++ line 8 (js "2. Source credibility")
  ++ line 8 (js "3. Language patterns")
  ++ line 8 (js "4. Logical consistency")
  ++ line 8 (js "5. Emotional manipulation")
  ++ line 8 (js "6. Citation verification")
  ++ nl
  ++ line 8 (js "Return EXACTLY this JSON format (no other text):")
  ++ line 8 (js "{")
  ++ line 12 (quoted "isFake" ++ js ": false,")
  ++ line 12 (quoted "confidence" ++ js ": 85,")
  ++ line 12 (quoted "features" ++ js ": [" ++ quoted "finding 1" ++ js ", "
              ++ quoted "finding 2" ++ js "],")
  ++ line 12 (quoted "explanation" ++ js ": " ++ quoted "detailed explanation")
  ++ line 8 (js "}")
  ++ nl
  ++ line 8 (js "Guidelines:")
  ++ line 8 (js "- isFake must be true/false based on clear evidence")
  ++ line 8 (js "- confidence must be 0-100 based on evidence strength")
  ++ line 8 (js "- features must list specific findings")
  ++ line 8 (js "- explanation must provide clear reasoning").

(** ** The world outside the file *)

(** What [await model.generateContent(prompt)] resolves to: a result
    without a response, or a response whose [text()] returns or throws. *)
Inductive GenerateContentResult :=
| NoResponse
| ResponseText (text : completion jsstring).

(** ** ObjectIds

    An [_id] is twelve bytes.  As text (in a response, in the path of a
    request) it is 24 hexadecimal digits, and the collection is keyed by
    that text in lower case, as [toHexString] gives it. *)

Abbreviation ObjectId := (list N) (only parsing).

Definition hex_char (d : N) : N := (if d <? 10 then 48 + d else 87 + d)%N.

(** The last [k] hexadecimal digits of [n], the most significant first. *)
Fixpoint hex_digits (k : nat) (n : N) : list N :=
  match k with
  | O => []
  | S k => hex_digits k (n / 16)%N ++ [hex_char (n mod 16)%N]
  end.

(** [oid.toHexString()] for the ObjectId whose twelve bytes are the low
    96 bits of [n]. *)
Definition toHexString (n : N) : ObjectId := hex_digits 24 n.

Definition is_hex_char (c : N) : bool :=
  ((48 <=? c) && (c <=? 57) || (97 <=? c) && (c <=? 102) || (65 <=? c) && (c <=? 70))%N.

Definition to_lower_hex (c : N) : N :=
  (if (65 <=? c) && (c <=? 70) then c + 32 else c)%N.

(** The cast of [req.params.id] that Mongoose makes before it queries by
    [_id], as bson 5 and later read a text: 24 hexadecimal digits, in
    either case, are an ObjectId; any other text is none, and the query
    rejects with a [CastError].  (Earlier versions of bson also read a
    text of 12 characters as the twelve bytes.) *)
Definition cast_ObjectId (id : jsstring) : option ObjectId :=
  if (length id =? 24) && forallb is_hex_char id
  then Some (to_lower_hex <$> id)
  else None.

Definition CastError (id : jsstring) : Exception :=
  {| kind := Error;
     message := js "Cast to ObjectId failed for value " ++ [34%N] ++ id ++ [34%N]
                ++ js " (type string) at path " ++ quoted "_id"
                ++ js " for model " ++ quoted "News" |}.

Module News.
(** A document of the [News] model (lines 60-68). *)
Record doc := {
  title : jsstring;
  content : jsstring;
  isFake : bool;
  confidence : number;
  features : list jsstring;
  explanation : jsstring;
  createdAt : Z
}.
End News.

Inductive StoreOp :=
| OpSave (id : ObjectId) (d : News.doc)
| OpFind
| OpFindByIdAndDelete (id : jsstring).

Inductive LogLine :=
| console_log_line (label text : jsstring)
| console_error_line (label text : jsstring).

Record World := {
  (** the reply of the Gemini model to a prompt, or what the call throws *)
  gemini : jsstring → completion GenerateContentResult;
  (** whether a store operation rejects (no connection, a time-out, ...) *)
  store_fault : StoreOp → option Exception;
  (** the identifiers the driver generates, as numbers, and the clock *)
  object_ids : nat → N;
  Date_now : Z;
  (** the [news] collection, by [_id] *)
  collection : gmap ObjectId News.doc;
  constructed : nat;
  console : list LogLine;
  prompts : list jsstring
}.

Definition set_collection (c : gmap ObjectId News.doc) (w : World) : World :=
  {| gemini := gemini w; store_fault := store_fault w;
     object_ids := object_ids w; Date_now := Date_now w;
     collection := c; constructed := constructed w;
     console := console w; prompts := prompts w |}.

Definition set_constructed (n : nat) (w : World) : World :=
  {| gemini := gemini w; store_fault := store_fault w;
     object_ids := object_ids w; Date_now := Date_now w;
     collection := collection w; constructed := n;
     console := console w; prompts := prompts w |}.

Definition set_console (l : list LogLine) (w : World) : World :=
  {| gemini := gemini w; store_fault := store_fault w;
     object_ids := object_ids w; Date_now := Date_now w;
     collection := collection w; constructed := constructed w;
     console := l; prompts := prompts w |}.

Definition set_prompts (l : list jsstring) (w : World) : World :=
  {| gemini := gemini w; store_fault := store_fault w;
     object_ids := object_ids w; Date_now := Date_now w;
     collection := collection w; constructed := constructed w;
     console := console w; prompts := l |}.

(** ** Programs: state and exceptions *)

Definition M (A : Type) : Type := World → completion A * World.

#[global] Instance M_ret : MRet M := λ A a w, (Normal a, w).
#[global] Instance M_bind : MBind M := λ A B f m w,
  match m w with
  | (Normal a, w') => f a w'
  | (Throw e, w') => (Throw e, w')
  end.

Definition throw {A} (e : Exception) : M A := λ w, (Throw e, w).

Definition lift {A} (c : completion A) : M A := λ w, (c, w).

(** [try { body } catch (error) { handler }] *)
Definition try_catch {A} (body : M A) (handler : Exception → M A) : M A := λ w,
  match body w with
  | (Normal a, w') => (Normal a, w')
  | (Throw e, w') => handler e w'
  end.

Definition console_log (label : string) (text : jsstring) : M unit := λ w,
  (Normal (), set_console (console w ++ [console_log_line (js label) text]) w).

Definition console_error (label : string) (text : jsstring) : M unit := λ w,
  (Normal (), set_console (console w ++ [console_error_line (js label) text]) w).

(** [await model.generateContent(prompt)]; the prompt sent is recorded. *)
Definition model_generateContent (prompt : jsstring) : M GenerateContentResult := λ w,
  (gemini w prompt, set_prompts (prompts w ++ [prompt]) w).

(** ** The store: Mongoose calls on the [News] model *)

(** [new News({...})]: the document gets its [_id] and, by the schema
    default, [createdAt = Date.now()]. *)
Definition news_entry (title content : jsstring) (a : Analysis) (w : World)
  : ObjectId * News.doc :=
  (toHexString (object_ids w (constructed w)),
   {| News.title := title; News.content := content;
      News.isFake := isFake a; News.confidence := confidence a;
      News.features := features a; News.explanation := explanation a;
      News.createdAt := Date_now w |}).

Definition new_News (title content : jsstring) (a : Analysis)
  : M (ObjectId * News.doc) := λ w,
  (Normal (news_entry title content a w), set_constructed (S (constructed w)) w).

(** [await newsEntry.save()]: an insert; [_id] is unique in a collection. *)
Definition save (entry : ObjectId * News.doc) : M unit := λ w,
  match store_fault w (OpSave entry.1 entry.2) with
  | Some e => (Throw e, w)
  | None =>
      match collection w !! entry.1 with
      | Some _ => (Throw (new_Error "E11000 duplicate key error"), w)
      | None => (Normal (), set_collection (<[entry.1 := entry.2]> (collection w)) w)
      end
  end.

Definition newer_first (a b : ObjectId * News.doc) : Prop :=
  (News.createdAt b.2 ≤ News.createdAt a.2)%Z.

#[global] Instance newer_first_dec a b : Decision (newer_first a b).
Proof. unfold newer_first. apply _. Defined.

(** [await News.find().sort({ createdAt: -1 }).limit(10)] *)
Definition find_sort_limit : M (list (ObjectId * News.doc)) := λ w,
  match store_fault w OpFind with
  | Some e => (Throw e, w)
  | None => (Normal (take 10 (merge_sort newer_first (map_to_list (collection w)))), w)
  end.

(** [await News.findByIdAndDelete(id)]: the deleted document, or [null].
    The text is cast to an ObjectId first; the query of a text that is
    none rejects before the store is asked. *)
Definition findByIdAndDelete (id : jsstring) : M (option News.doc) := λ w,
  match cast_ObjectId id with
  | None => (Throw (CastError id), w)
  | Some _id =>
      match store_fault w (OpFindByIdAndDelete id) with
      | Some e => (Throw e, w)
      | None =>
          match collection w !! _id with
          | Some d => (Normal (Some d), set_collection (delete _id (collection w)) w)
          | None => (Normal None, w)
          end
      end
  end.

(** ** HTTP responses *)

Inductive Body :=
| ErrorBody (error : jsstring) (details : option jsstring)
| AnalysisBody (a : Analysis)
| HistoryBody (docs : list (ObjectId * News.doc))
| SuccessBody (message : jsstring).

Record Response := { status : nat; body : Body }.

(** [res.status(n).json(b)], and [res.json(b)] with the default status. *)
Definition res_status_json (n : nat) (b : Body) : Response := {| status := n; body := b |}.
Definition res_json (b : Body) : Response := res_status_json 200 b.

(** [analysis.features?.[0]?.startsWith('Error:')] *)
Definition analysis_failed (a : Analysis) : bool :=
  match features a with
  | f :: _ => startsWith (js "Error:") f
  | [] => false
  end.

(** [s || fallback] on strings *)
Definition or_else (s fallback : jsstring) : jsstring :=
  if nonempty s then s else fallback.

Section Server.

(** [JSON.parse]: the value of a text, or the [SyntaxError] it throws. *)
Variable JSON_parse : jsstring → completion value.

(** Lines 110-145: from the text of the reply to the validated
    analysis. *)
Definition read_reply (text : jsstring) : M Analysis :=
  let rawText := trim text in
  console_log "Raw AI response:" rawText;;
  match match_braces rawText with
  | None =>
      console_error "Invalid response format:" rawText;;
      throw (new_Error "Could not parse AI response")
  | Some jsonMatch =>
      analysis ← lift (JSON_parse jsonMatch);
      lift (validate analysis)
  end.

(** The [try] block of [analyzeText] (lines 75-145). *)
Definition analyzeText_try (title content : jsstring) : M Analysis :=
  let prompt := build_prompt title content in
  result ← model_generateContent prompt;
  match result with
  | NoResponse => throw (new_Error "No response received from AI service")
  | ResponseText text_call =>
      text ← lift text_call;
      read_reply text
  end.

(** [analyzeText] (lines 73-158) *)
Definition analyzeText (title content : jsstring) : M Analysis :=
  try_catch (analyzeText_try title content)
    (λ error,
      console_error "Analysis error:" (message error);;
      mret degraded).

Definition required_fields_error : jsstring :=
  js "Both title and content are required and cannot be empty".
Definition too_short_error : jsstring :=
  js "Content is too short. Please provide more text for accurate analysis.".

(** Lines 187-200: the save, whose failure is logged and goes no
    further. *)
Definition save_to_database (title content : jsstring) (analysis : Analysis)
  : M unit :=
  try_catch
    (newsEntry ← new_News title content analysis;
     save newsEntry)
    (λ dbError, console_error "Database error:" (message dbError)).

(** The [try] block of the handler of [POST /api/analyze]
    (lines 163-202); [req_body] is [req.body]. *)
Definition post_analyze_try (req_body : value) : M Response :=
  title ← lift (get req_body "title");
  content ← lift (get req_body "content");
  title_trimmed ← lift (optional_trim "title" title);
  if negb (truthy title_trimmed)
  then mret (res_status_json 400 (ErrorBody required_fields_error None))
  else
    content_trimmed ← lift (optional_trim "content" content);
    if negb (truthy content_trimmed)
    then mret (res_status_json 400 (ErrorBody required_fields_error None))
    else
      match title, content with
      | VStr title, VStr content =>
          if length content <? 50
          then mret (res_status_json 400 (ErrorBody too_short_error None))
          else
            analysis ← analyzeText title content;
            if analysis_failed analysis
            then mret (res_status_json 500
                         (ErrorBody (or_else (explanation analysis)
                                       (js "Analysis failed. Please try again."))
                            None))
            else
              save_to_database title content analysis;;
              mret (res_json (AnalysisBody analysis))
      | _, _ =>
          (* not reached: a truthy [v?.trim()] makes [v] a string *)
          throw (new_TypeError "content.length")
      end.

(** [app.post('/api/analyze', ...)] (lines 161-210) *)
Definition post_analyze (req_body : value) : M Response :=
  try_catch (post_analyze_try req_body)
    (λ error,
      console_error "API error:" (message error);;
      mret (res_status_json 500
              (ErrorBody (js "Server error. Please try again later.")
                 (Some (message error))))).

End Server.

(** [app.get('/api/history', ...)] (lines 213-220) *)
Definition get_history : M Response :=
  try_catch
    (history ← find_sort_limit;
     mret (res_json (HistoryBody history)))
    (λ error, mret (res_json (HistoryBody []))).

(** [app.delete('/api/history/:id', ...)] (lines 223-240); [id] is
    [req.params.id]. *)
Definition delete_history (id : jsstring) : M Response :=
  try_catch
    (result ← findByIdAndDelete id;
     match result with
     | None => mret (res_status_json 404 (ErrorBody (js "Item not found") None))
     | Some _ => mret (res_json (SuccessBody (js "Item deleted successfully")))
     end)
    (λ error,
      console_error "Delete error:" (message error);;
      mret (res_status_json 500
              (ErrorBody (js "Failed to delete item") (Some (message error))))).

(** ** A reference reader of JSON

    An instance of [JSON_parse] for the worked examples: the grammar of
    ECMA-404, read by recursive descent.  A number literal is taken at its
    exact decimal value (its rounding to the nearest double is not
    modelled), with an infinity from 2^1024 on. *)

Module JSONReader.

Definition syntax_error {A} : completion A :=
  Throw {| kind := SyntaxError; message := js "Unexpected token in JSON" |}.

Definition is_json_ws (c : N) : bool :=
  ((c =? 32) || (c =? 9) || (c =? 10) || (c =? 13))%N.

Fixpoint skip_ws (s : jsstring) : jsstring :=
  match s with
  | c :: rest => if is_json_ws c then skip_ws rest else s
  | [] => []
  end.

Definition digit (c : N) : option Z :=
  if ((48 <=? c) && (c <=? 57))%N then Some (Z.of_N c - 48)%Z else None.

Definition hex_digit (c : N) : option N :=
  if ((48 <=? c) && (c <=? 57))%N then Some (c - 48)%N
  else if ((97 <=? c) && (c <=? 102))%N then Some (c - 87)%N
  else if ((65 <=? c) && (c <=? 70))%N then Some (c - 55)%N
  else None.

(** The digits at the head of [s]: their value after [acc], how many
    there are, and the rest of the text. *)
Fixpoint read_digits (s : jsstring) (acc : Z) (count : nat) : Z * nat * jsstring :=
  match s with
  | c :: rest =>
      match digit c with
      | Some d => read_digits rest (10 * acc + d)%Z (S count)
      | None => (acc, count, s)
      end
  | [] => (acc, count, s)
  end.

Definition two_1024 : Q := inject_Z (2 ^ 1024).

Definition decimal (negative : bool) (mantissa exponent : Z) : number :=
  if (mantissa =? 0)%Z then of_Z 0
  else if (400 <? exponent)%Z then (if negative then NegInfinity else PosInfinity)
  else if (exponent <? -400)%Z then of_Z 0
  else
    let q := if (0 <=? exponent)%Z
             then inject_Z (mantissa * 10 ^ exponent)
             else Qred (mantissa # Z.to_pos (10 ^ (- exponent))) in
    if Qle_bool two_1024 q
    then (if negative then NegInfinity else PosInfinity)
    else Finite (if negative then Qred (- q) else q).

Definition read_exponent (s : jsstring) : option (Z * jsstring) :=
  match s with
  | c :: rest =>
      if ((c =? 101) || (c =? 69))%N then
        let '(negative, rest) :=
          match rest with
          | 45%N :: r => (true, r)
          | 43%N :: r => (false, r)
          | _ => (false, rest)
          end in
        match read_digits rest 0 0 with
        | (_, O, _) => None
        | (e, _, rest') => Some (if negative then (- e)%Z else e, rest')
        end
      else Some (0%Z, s)
  | [] => Some (0%Z, s)
  end.

Definition read_number (s : jsstring) : option (number * jsstring) :=
  let '(negative, s) := match s with 45%N :: r => (true, r) | _ => (false, s) end in
  int_part ← match s with
             | 48%N :: r => Some (0%Z, r)
             | _ => match read_digits s 0 0 with
                    | (_, O, _) => None
                    | (n, _, r) => Some (n, r)
                    end
             end;
  frac_part ← match int_part.2 with
              | 46%N :: r =>
                  match read_digits r int_part.1 0 with
                  | (_, O, _) => None
                  | (n, k, r') => Some (n, k, r')
                  end
              | r => Some (int_part.1, O, r)
              end;
  let '(mantissa, scale, rest) := frac_part in
  exp_part ← read_exponent rest;
  Some (decimal negative mantissa (exp_part.1 - Z.of_nat scale), exp_part.2).

(** The characters of a string after its opening quote. *)
Fixpoint read_string (fuel : nat) (s acc : jsstring) : option (jsstring * jsstring) :=
  match fuel, s with
  | S fuel, 34%N :: rest => Some (acc, rest)
  | S fuel, 92%N :: e :: rest =>
      let simple (c : N) := read_string fuel rest (acc ++ [c]) in
      match e with
      | 34%N | 92%N | 47%N => simple e
      | 98%N => simple 8%N
      | 102%N => simple 12%N
      | 110%N => simple 10%N
      | 114%N => simple 13%N
      | 116%N => simple 9%N
      | 117%N =>
          match rest with
          | a :: b :: c :: d :: rest' =>
              match hex_digit a, hex_digit b, hex_digit c, hex_digit d with
              | Some a, Some b, Some c, Some d =>
                  read_string fuel rest' (acc ++ [((a * 16 + b) * 16 + c) * 16 + d])%N
              | _, _, _, _ => None
              end
          | _ => None
          end
      | _ => None
      end
  | S fuel, c :: rest =>
      if (c <? 32)%N then None else read_string fuel rest (acc ++ [c])
  | _, _ => None
  end.

Section Composite.
Variable read_value : jsstring → option (value * jsstring).

(** The elements of an array after the first one. *)
Fixpoint read_elements (fuel : nat) (s : jsstring) (acc : list value)
  : option (list value * jsstring) :=
  match fuel, skip_ws s with
  | S fuel, 93%N :: rest => Some (acc, rest)
  | S fuel, 44%N :: rest =>
      '(v, rest') ← read_value rest;
      read_elements fuel rest' (acc ++ [v])
  | _, _ => None
  end.

Definition read_member (s : jsstring) : option (jsstring * value * jsstring) :=
  match skip_ws s with
  | 34%N :: rest =>
      '(k, rest1) ← read_string (length rest) rest [];
      match skip_ws rest1 with
      | 58%N :: rest2 =>
          '(v, rest3) ← read_value rest2;
          Some (k, v, rest3)
      | _ => None
      end
  | _ => None
  end.

(** The members of an object after the first one; a repeated name
    keeps its last value. *)
Fixpoint read_members (fuel : nat) (s : jsstring) (acc : gmap jsstring value)
  : option (gmap jsstring value * jsstring) :=
  match fuel, skip_ws s with
  | S fuel, 125%N :: rest => Some (acc, rest)
  | S fuel, 44%N :: rest =>
      '(k, v, rest') ← read_member rest;
      read_members fuel rest' (<[k := v]> acc)
  | _, _ => None
  end.
End Composite.

Fixpoint read_value (fuel : nat) (s : jsstring) : option (value * jsstring) :=
  match fuel with
  | O => None
  | S fuel =>
      let s := skip_ws s in
      match s with
      | 123%N :: rest =>
          match skip_ws rest with
          | 125%N :: rest' => Some (VObj ∅, rest')
          | _ =>
              '(k, v, rest') ← read_member (read_value fuel) rest;
              '(o, rest'') ← read_members (read_value fuel) (S (length rest')) rest' {[k := v]};
              Some (VObj o, rest'')
          end
      | 91%N :: rest =>
          match skip_ws rest with
          | 93%N :: rest' => Some (VArr [], rest')
          | _ =>
              '(v, rest') ← read_value fuel rest;
              '(l, rest'') ← read_elements (read_value fuel) (S (length rest')) rest' [v];
              Some (VArr l, rest'')
          end
      | 34%N :: rest =>
          '(str, rest') ← read_string (length rest) rest [];
          Some (VStr str, rest')
      | _ =>
          if startsWith (js "true") s then Some (VBool true, drop 4 s)
          else if startsWith (js "false") s then Some (VBool false, drop 5 s)
          else if startsWith (js "null") s then Some (VNull, drop 4 s)
          else '(n, rest) ← read_number s; Some (VNum n, rest)
      end
  end.

(** [JSON.parse(text)] *)
Definition parse (text : jsstring) : completion value :=
  match read_value (S (length text)) text with
  | Some (v, rest) =>
      match skip_ws rest with
      | [] => Normal v
      | _ :: _ => syntax_error
      end
  | None => syntax_error
  end.

End JSONReader.

(** ** Vocabulary of the statements *)

(** The value of a property of a parsed object. *)
Definition field (o : gmap jsstring value) (k : string) : value :=
  default VUndefined (o !! js k).

Definition is_boolean (v : value) : Prop := ∃ b, v = VBool b.

Definition confidence_in_range (v : value) : Prop :=
  ∃ q, v = VNum (Finite q) ∧ (0 <= q)%Q ∧ (q <= 100)%Q.

Definition nonempty_list (v : value) : Prop := ∃ f fs, v = VArr (f :: fs).

Definition nonblank_string (v : value) : Prop := ∃ s, v = VStr s ∧ trim s ≠ [].

(** The invariants of an analysis result: an integer confidence between 0
    and 100, at least one feature, no empty feature, an explanation. *)
Definition integer_in_0_100 (n : number) : Prop :=
  ∃ z : Z, n = of_Z z ∧ (0 ≤ z ≤ 100)%Z.

Definition AnalysisResult_invariants (a : Analysis) : Prop :=
  integer_in_0_100 (confidence a) ∧ features a ≠ [] ∧
  Forall (λ f, f ≠ []) (features a) ∧ explanation a ≠ [].

(** A request body whose [title] and [content] pass the checks of the
    handler (lines 165-175). *)
Definition valid_request (req_body : value) (title content : jsstring) : Prop :=
  get req_body "title" = Normal (VStr title) ∧
  get req_body "content" = Normal (VStr content) ∧
  trim title ≠ [] ∧ trim content ≠ [] ∧ 50 ≤ length content.

(** A field that is missing, [null] or a string. *)
Definition string_or_absent (v : value) : Prop :=
  v = VUndefined ∨ v = VNull ∨ ∃ s, v = VStr s.

(** A field that is missing, [null] or empty after trimming. *)
Definition blank (v : value) : Prop :=
  v = VUndefined ∨ v = VNull ∨ ∃ s, v = VStr s ∧ trim s = [].

(** A string of fewer than 50 code units. *)
Definition shorter_than_50 (v : value) : Prop :=
  ∃ s, v = VStr s ∧ length s < 50.

(** A field that is present and is not a string. *)
Definition present_non_string (v : value) : Prop :=
  match v with
  | VBool _ | VNum _ | VArr _ | VObj _ => True
  | VUndefined | VNull | VStr _ => False
  end.

(** The ways the [try] block of [analyzeText] fails, by stage, for a reply
    of the model. *)
Inductive stage_failure (JSON_parse : jsstring → completion value)
  : completion GenerateContentResult → Exception → Prop :=
| call_throws e :
    stage_failure JSON_parse (Throw e) e
| no_response :
    stage_failure JSON_parse (Normal NoResponse)
      (new_Error "No response received from AI service")
| text_throws e :
    stage_failure JSON_parse (Normal (ResponseText (Throw e))) e
| extraction_fails text :
    match_braces (trim text) = None →
    stage_failure JSON_parse (Normal (ResponseText (Normal text)))
      (new_Error "Could not parse AI response")
| parse_fails text candidate e :
    match_braces (trim text) = Some candidate →
    JSON_parse candidate = Throw e →
    stage_failure JSON_parse (Normal (ResponseText (Normal text))) e
| validation_fails text candidate analysis e :
    match_braces (trim text) = Some candidate →
    JSON_parse candidate = Normal analysis →
    validate analysis = Throw e →
    stage_failure JSON_parse (Normal (ResponseText (Normal text))) e.

Definition set_store_fault (f : StoreOp → option Exception) (w : World) : World :=
  {| gemini := gemini w; store_fault := f;
     object_ids := object_ids w; Date_now := Date_now w;
     collection := collection w; constructed := constructed w;
     console := console w; prompts := prompts w |}.

(** ** Worked examples: texts, requests and worlds *)

(** A JSON text written with ['] for the double quote. *)
Definition json_text (s : string) : jsstring :=
  (λ a, if (N_of_ascii a =? 39)%N then 34%N else N_of_ascii a) <$> list_ascii_of_string s.

Definition request (title content : value) : value :=
  VObj (<[js "title" := title]> (<[js "content" := content]> ∅)).

(** The object of a reply with the four fields of the schema. *)
Definition reply_object (isFake_v confidence_v features_v explanation_v : value)
  : gmap jsstring value :=
  <[js "isFake" := isFake_v]> (<[js "confidence" := confidence_v]>
    (<[js "features" := features_v]> (<[js "explanation" := explanation_v]> ∅))).

Definition bakery_title : jsstring := js "Local Bakery Wins Award".
Definition filler_content : jsstring := replicate 60 120%N.

(** A world with an empty collection in which the model answers every
    prompt with [reply] and the store behaves as [fault] says. *)
Definition world_with (reply : completion GenerateContentResult)
    (fault : StoreOp → option Exception) : World :=
  {| gemini := λ _, reply; store_fault := fault;
     object_ids := λ n, N.of_nat n; Date_now := 1700000000000;
     collection := ∅; constructed := 0; console := []; prompts := [] |}.

Definition store_up : StoreOp → option Exception := λ _, None.
Definition store_down : StoreOp → option Exception :=
  λ _, Some (new_Error "buffering timed out").

(** The reply of the end-to-end example, without its braces. *)
Definition bakery_reply_members : jsstring :=
  json_text "'isFake': false, 'confidence': 92, 'features': ['Verified by two sources'], 'explanation': 'Claims match public records.'".

Definition replies (s : string) : completion GenerateContentResult :=
  Normal (ResponseText (Normal (json_text s))).

(** The [n]-th document of an archive, created at time [n]. *)
Definition archived (n : nat) : list N * News.doc :=
  (toHexString (1000 + N.of_nat n),
   {| News.title := bakery_title; News.content := filler_content;
      News.isFake := false; News.confidence := of_Z 92;
      News.features := [js "Verified by two sources"];
      News.explanation := js "Claims match public records.";
      News.createdAt := Z.of_nat n |}).

(** A world whose collection holds the documents [0] to [n - 1]. *)
Definition archive_world (n : nat) (fault : StoreOp → option Exception) : World :=
  set_collection (list_to_map (archived <$> seq 0 n)) (world_with (replies "{}") fault).

(** ** Start-up (lines 32-57 and 242-246) *)






(** ** Further vocabulary *)

(** The object that [res.json(analysis)] writes, as a reader of the
    response gets it back. *)
Definition analysis_object (a : Analysis) : gmap (list N) value :=
  reply_object (VBool (isFake a)) (VNum (confidence a))
    (VArr (VStr <$> features a)) (VStr (explanation a)).

(** The reply of the model was read, parsed and validated as [a]. *)
Definition reply_validates (JSON_parse : list N → completion value)
    (reply : completion GenerateContentResult) (a : Analysis) : Prop :=
  ∃ text candidate analysis,
    reply = Normal (ResponseText (Normal text)) ∧
    match_braces (trim text) = Some candidate ∧
    JSON_parse candidate = Normal analysis ∧
    validate analysis = Normal a.

(** What the validator guarantees of a result (see
    [AnalysisResult_invariants] for what the data model asks). *)
Definition validated (a : Analysis) : Prop :=
  integer_in_0_100 (confidence a) ∧ Forall (λ f, f ≠ []) (features a) ∧
  explanation a ≠ [].

(** Every document of [c] is still in [c'], unchanged. *)
Definition keeps_documents (c c' : gmap (list N) News.doc) : Prop :=
  ∀ id d, c !! id = Some d → c' !! id = Some d.

(** A request whose content is 49 letters and a trailing blank. *)
Definition padded_content : list N := replicate 49 120%N ++ [32%N].

(** * Properties *)

(** ** The extractor *)

Lemma code_unit_eqb_eq a b : code_unit_eqb a b = true ↔ a = b.
Proof. apply N.eqb_eq. Qed.

Lemma code_unit_eqb_neq a b : code_unit_eqb a b = false ↔ a ≠ b.
Proof. apply N.eqb_neq. Qed.

Lemma any_star_close_None (s : jsstring) :
  any_star_close s = None ↔ close_brace ∉ s.
Proof.
  induction s as [|c rest IH]; simpl.
  - split; [intros _; apply not_elem_of_nil | done].
  - rewrite not_elem_of_cons.
    destruct (any_star_close rest) as [m|] eqn:E.
    + split; [done | intros [_ H]; by apply IH in H].
    + destruct (code_unit_eqb c close_brace) eqn:Ec.
      * apply code_unit_eqb_eq in Ec. split; [done | intros [H _]; congruence].
      * split; [intros _ | done]. split; [| by apply IH].
        apply code_unit_eqb_neq in Ec. congruence.
Qed.

Lemma any_star_close_Some (s m : jsstring) :
  any_star_close s = Some m ↔
  ∃ mid post, s = mid ++ close_brace :: post ∧ (close_brace ∉ post) ∧ m = mid ++ [close_brace].
Proof.
  split.
  - revert m. induction s as [|c rest IH]; simpl; intros m; [done|].
    destruct (any_star_close rest) as [m0|] eqn:E.
    + intros [= <-]. destruct (IH m0 eq_refl) as (mid & post & -> & Hpost & ->).
      by exists (c :: mid), post.
    + destruct (code_unit_eqb c close_brace) eqn:Ec; [|done].
      apply code_unit_eqb_eq in Ec as ->. intros [= <-].
      exists [], rest. by rewrite <- any_star_close_None.
  - intros (mid & post & -> & Hpost & ->).
    induction mid as [|c mid IH]; simpl.
    + apply any_star_close_None in Hpost as ->.
      replace (code_unit_eqb close_brace close_brace) with true; [done|].
      symmetry. by apply code_unit_eqb_eq.
    + by rewrite IH.
Qed.

Lemma match_braces_Some (s m : jsstring) :
  match_braces s = Some m ↔
  ∃ pre mid post, s = pre ++ open_brace :: mid ++ close_brace :: post ∧
    (open_brace ∉ pre) ∧ (close_brace ∉ post) ∧ m = open_brace :: mid ++ [close_brace].
Proof.
  split.
  - revert m. induction s as [|c rest IH]; intros m; [done|].
    cbn [match_braces braces_here].
    destruct (code_unit_eqb c open_brace) eqn:Ec.
    + apply code_unit_eqb_eq in Ec as ->.
      destruct (any_star_close rest) as [m0|] eqn:E; simpl.
      * intros ?; simplify_eq. apply any_star_close_Some in E as (mid & post & -> & Hpost & ->).
        exists [], mid, post. split_and!; [done | apply not_elem_of_nil | done | done].
      * intros H. destruct (IH m H) as (pre & mid & post & -> & _ & _ & _).
        apply any_star_close_None in E. exfalso. apply E.
        rewrite elem_of_app, elem_of_cons, elem_of_app, elem_of_cons. auto.
    + intros H. destruct (IH m H) as (pre & mid & post & -> & Hpre & Hpost & ->).
      exists (c :: pre), mid, post. split_and!; try done.
      rewrite not_elem_of_cons. split; [|done].
      apply code_unit_eqb_neq in Ec. congruence.
  - intros (pre & mid & post & -> & Hpre & Hpost & ->).
    induction pre as [|c pre IH].
    + cbn [app match_braces braces_here].
      replace (code_unit_eqb open_brace open_brace) with true by done.
      assert (any_star_close (mid ++ close_brace :: post) = Some (mid ++ [close_brace])) as ->; [|done].
      apply any_star_close_Some. by exists mid, post.
    + apply not_elem_of_cons in Hpre as [Hc Hpre].
      cbn [app match_braces braces_here].
      destruct (code_unit_eqb c open_brace) eqn:Ec.
      { apply code_unit_eqb_eq in Ec. congruence. }
      by apply IH.
Qed.

Lemma first_index_Some (c : N) (s : jsstring) (i : nat) :
  first_index c s = Some i ↔ s !! i = Some c ∧ ∀ k, k < i → s !! k ≠ Some c.
Proof.
  unfold first_index. split.
  - intros H. apply fmap_Some in H as ([i' x] & H & ->).
    apply list_find_Some in H as (Hi & -> & Hlt). split; [done|].
    intros k Hk Hc. by apply (Hlt k c).
  - intros [Hi Hlt]. apply fmap_Some. exists (i, c). split; [|done].
    apply list_find_Some. split_and!; [done..|].
    intros k y Hy Hk ->. by apply (Hlt k).
Qed.

Lemma last_index_Some (c : N) (s : jsstring) (j : nat) :
  last_index c s = Some j ↔ s !! j = Some c ∧ ∀ k, j < k → s !! k ≠ Some c.
Proof.
  unfold last_index. rewrite fmap_Some. split.
  - intros (i & Hi & ->). apply first_index_Some in Hi as [Hi Hlt].
    apply reverse_lookup_Some in Hi as [Hi Hlen].
    split; [by replace (length s - 1 - i) with (length s - S i) by lia|].
    intros k Hk Hc. pose proof (lookup_lt_Some _ _ _ Hc) as Hklen.
    apply (Hlt (length s - S k)); [lia|].
    apply reverse_lookup_Some. split; [|lia].
    by replace (length s - S (length s - S k)) with k by lia.
  - intros [Hj Hgt]. pose proof (lookup_lt_Some _ _ _ Hj) as Hjlen.
    exists (length s - S j). split; [|lia].
    apply first_index_Some. split.
    + apply reverse_lookup_Some. split; [|lia].
      by replace (length s - S (length s - S j)) with j by lia.
    + intros k Hk Hc. apply reverse_lookup_Some in Hc as [Hc Hklen].
      apply (Hgt (length s - S k)); [lia | done].
Qed.

(** A decomposition of a text around its first opening and last closing
    brace, read as positions. *)
Lemma braces_positions (pre mid post : jsstring) :
  let s := pre ++ open_brace :: mid ++ close_brace :: post in
  let i := length pre in
  let j := length pre + S (length mid) in
  open_brace ∉ pre → close_brace ∉ post →
  first_index open_brace s = Some i ∧ last_index close_brace s = Some j ∧
  i < j ∧ slice i (S j) s = open_brace :: mid ++ [close_brace].
Proof.
  intros s i j Hpre Hpost. subst s i j. split_and!.
  - apply first_index_Some. split.
    + by apply list_lookup_middle.
    + intros k Hk Hc. apply Hpre. apply list_elem_of_lookup. exists k.
      by rewrite lookup_app_l in Hc.
  - apply last_index_Some. split.
    + rewrite lookup_app_r by lia.
      replace (length pre + S (length mid) - length pre) with (S (length mid)) by lia.
      simpl. by apply list_lookup_middle.
    + intros k Hk Hc. apply Hpost. apply list_elem_of_lookup.
      exists (k - S (length pre + S (length mid))).
      rewrite lookup_app_r in Hc by lia.
      replace (k - length pre) with (S (k - length pre - 1)) in Hc by lia.
      simpl in Hc. rewrite lookup_app_r in Hc by lia.
      replace (k - length pre - 1 - length mid) with (S (k - S (length pre + S (length mid)))) in Hc by lia.
      done.
  - lia.
  - unfold slice. rewrite drop_app_length.
    replace (S (length pre + S (length mid)) - length pre) with (S (length mid + 1)) by lia.
    simpl. f_equal.
    replace (mid ++ close_brace :: post) with ((mid ++ [close_brace]) ++ post)
      by (by rewrite <- app_assoc).
    rewrite take_app_length'; [done|]. rewrite length_app. simpl. lia.
Qed.

(** Conversely, the positions of an opening brace and of a later closing
    brace split the text. *)
Lemma positions_braces (s : jsstring) (i j : nat) :
  i < j → s !! i = Some open_brace → s !! j = Some close_brace →
  s = take i s ++ open_brace :: slice (S i) j s ++ close_brace :: drop (S j) s.
Proof.
  intros Hij Hi Hj. unfold slice.
  rewrite <- (take_drop_middle s i open_brace Hi) at 1. f_equal. f_equal.
  assert (drop (S i) s !! (j - S i) = Some close_brace) as Hj'.
  { rewrite lookup_drop. by replace (S i + (j - S i)) with j by lia. }
  rewrite <- (take_drop_middle _ _ _ Hj') at 1. f_equal. f_equal.
  rewrite drop_drop. f_equal. lia.
Qed.

Lemma first_to_last_brace_Some (s m : jsstring) :
  first_to_last_brace s = Some m ↔
  ∃ pre mid post, s = pre ++ open_brace :: mid ++ close_brace :: post ∧
    (open_brace ∉ pre) ∧ (close_brace ∉ post) ∧ m = open_brace :: mid ++ [close_brace].
Proof.
  unfold first_to_last_brace. split.
  - intros H. apply bind_Some in H as (i & Hi & H).
    apply bind_Some in H as (j & Hj & H).
    case_decide as Hij; [|done]. injection H as <-.
    apply first_index_Some in Hi as [Hi Hfirst].
    apply last_index_Some in Hj as [Hj Hlast].
    pose proof (positions_braces s i j Hij Hi Hj) as Hs.
    exists (take i s), (slice (S i) j s), (drop (S j) s). split_and!; [done|..].
    + intros Hin. apply list_elem_of_lookup in Hin as [k Hk].
      pose proof (lookup_lt_Some _ _ _ Hk) as Hklen. rewrite length_take in Hklen.
      rewrite lookup_take_lt in Hk by lia. apply (Hfirst k); [lia | done].
    + intros Hin. apply list_elem_of_lookup in Hin as [k Hk].
      rewrite lookup_drop in Hk. apply (Hlast (S j + k)); [lia | done].
    + pose proof (lookup_lt_Some _ _ _ Hi) as Hilen.
      pose proof (lookup_lt_Some _ _ _ Hj) as Hjlen.
      destruct (braces_positions (take i s) (slice (S i) j s) (drop (S j) s))
        as (_ & _ & _ & Hslice).
      * intros Hin. apply list_elem_of_lookup in Hin as [k Hk].
        pose proof (lookup_lt_Some _ _ _ Hk) as Hklen. rewrite length_take in Hklen.
        rewrite lookup_take_lt in Hk by lia. apply (Hfirst k); [lia | done].
      * intros Hin. apply list_elem_of_lookup in Hin as [k Hk].
        rewrite lookup_drop in Hk. apply (Hlast (S j + k)); [lia | done].
      * rewrite <- Hs in Hslice. rewrite <- Hslice. f_equal.
        -- rewrite length_take. lia.
        -- unfold slice. rewrite !length_take, length_drop. lia.
  - intros (pre & mid & post & -> & Hpre & Hpost & ->).
    destruct (braces_positions pre mid post Hpre Hpost) as (-> & -> & Hij & Hslice).
    simpl. case_decide; [|done]. by rewrite Hslice.
Qed.

Lemma first_index_None (c : N) (s : jsstring) :
  first_index c s = None ↔ c ∉ s.
Proof.
  unfold first_index. rewrite fmap_None, list_find_None, Forall_forall.
  split; [intros H Hin; by apply (H c) | intros H x Hin ->; done].
Qed.

Lemma last_index_None (c : N) (s : jsstring) :
  last_index c s = None ↔ c ∉ s.
Proof.
  unfold last_index. rewrite fmap_None, first_index_None.
  by rewrite elem_of_reverse.
Qed.

Lemma first_to_last_brace_None (s : jsstring) :
  first_to_last_brace s = None ↔
  ¬ ∃ i j, i ≤ j ∧ s !! i = Some open_brace ∧ s !! j = Some close_brace.
Proof.
  split.
  - intros Hnone (i & j & Hij & Hi & Hj).
    unfold first_to_last_brace in Hnone.
    destruct (first_index open_brace s) as [i0|] eqn:Ei; simpl in Hnone.
    2: { apply first_index_None in Ei. apply Ei. by eapply list_elem_of_lookup_2. }
    destruct (last_index close_brace s) as [j0|] eqn:Ej; simpl in Hnone.
    2: { apply last_index_None in Ej. apply Ej. by eapply list_elem_of_lookup_2. }
    apply first_index_Some in Ei as [Hi0 Hfirst].
    apply last_index_Some in Ej as [Hj0 Hlast].
    case_decide as Hlt; [done|].
    assert (i0 ≤ i) by (destruct (decide (i0 ≤ i)); [done | exfalso; apply (Hfirst i); [lia | done]]).
    assert (j ≤ j0) by (destruct (decide (j ≤ j0)); [done | exfalso; apply (Hlast j); [lia | done]]).
    assert (i = j) as -> by lia. rewrite Hi in Hj. discriminate.
  - intros Hno. destruct (first_to_last_brace s) as [m|] eqn:E; [|done].
    exfalso. apply Hno.
    apply first_to_last_brace_Some in E as (pre & mid & post & -> & _ & _ & _).
    exists (length pre), (length pre + S (length mid)). split_and!; [lia|..].
    + by apply list_lookup_middle.
    + rewrite lookup_app_r by lia.
      replace (length pre + S (length mid) - length pre) with (S (length mid)) by lia.
      simpl. by apply list_lookup_middle.
Qed.

Lemma match_braces_spec (s : jsstring) : match_braces s = first_to_last_brace s.
Proof.
  apply option_eq. intros m. by rewrite match_braces_Some, first_to_last_brace_Some.
Qed.

(** Unfolding of the monadic combinators, for running a program on a
    given world. *)
Ltac run :=
  repeat (progress (cbn -[trim build_prompt js Nat.ltb validate save_to_database news_entry
           cast_ObjectId CastError] ||
    unfold mbind, M_bind, mret, M_ret, completion_bind, completion_ret,
      lift, throw, try_catch, console_log, console_error)).

(** C4.  The candidate handed to [JSON.parse] is the span of the trimmed
    reply from its first opening brace through its last closing brace;
    there is none exactly when no opening brace is followed by a closing
    one, and exactly then the reply is refused with the extraction
    error. *)
Theorem extractor_first_to_last_brace
    (JSON_parse : jsstring → completion value) (text : jsstring) (w : World) :
  let rawText := trim text in
  match_braces rawText = first_to_last_brace rawText ∧
  (match_braces rawText = None ↔
     ¬ ∃ i j, i ≤ j ∧ rawText !! i = Some open_brace ∧ rawText !! j = Some close_brace) ∧
  match match_braces rawText with
  | Some candidate =>
      (read_reply JSON_parse text w).1 = (JSON_parse candidate ≫= validate)
  | None =>
      (read_reply JSON_parse text w).1 = Throw (new_Error "Could not parse AI response")
  end.
Proof.
  intros rawText. split_and!.
  - apply match_braces_spec.
  - rewrite match_braces_spec. apply first_to_last_brace_None.
  - unfold read_reply. fold rawText.
    destruct (match_braces rawText) as [candidate|]; run; [|done].
    destruct (JSON_parse candidate) as [analysis|e]; run; [|done].
    by destruct (validate analysis).
Qed.

(** ** [analyzeText] *)

Lemma analyzeText_try_fails (JSON_parse : jsstring → completion value)
    (title content : jsstring) (w : World) (e : Exception) :
  (analyzeText_try JSON_parse title content w).1 = Throw e ↔
  stage_failure JSON_parse (gemini w (build_prompt title content)) e.
Proof.
  unfold analyzeText_try, model_generateContent, read_reply. run.
  destruct (gemini w (build_prompt title content)) as [[|[text|e']]|e'] eqn:Hreply; run.
  - split; [intros [= <-]; constructor | by inversion 1].
  - destruct (match_braces (trim text)) as [candidate|] eqn:Hmatch; run.
    + destruct (JSON_parse candidate) as [analysis|e'] eqn:Hparse; run.
      * destruct (validate analysis) as [a|e'] eqn:Hvalid; run.
        -- split; [done|]. inversion 1; subst; congruence.
        -- split; [intros [= <-]; by econstructor 6|]. inversion 1; subst; congruence.
      * split; [intros [= <-]; by econstructor 5|]. inversion 1; subst; congruence.
    + split; [intros [= <-]; by constructor|]. inversion 1; subst; congruence.
  - split; [intros [= <-]; constructor | by inversion 1].
  - split; [intros [= <-]; constructor | by inversion 1].
Qed.

(** [analyzeText] returns in every case: what its [try] block returns, or
    the fixed object of its [catch]. *)
Lemma analyzeText_returns (JSON_parse : jsstring → completion value)
    (title content : jsstring) (w : World) :
  ∃ w1, analyzeText JSON_parse title content w =
        (Normal (match (analyzeText_try JSON_parse title content w).1 with
                 | Normal a => a
                 | Throw _ => degraded
                 end), w1) ∧
        collection w1 = collection (analyzeText_try JSON_parse title content w).2 ∧
        store_fault w1 = store_fault w.
Proof.
  unfold analyzeText. run.
  assert (store_fault (analyzeText_try JSON_parse title content w).2 = store_fault w) as Hf.
  { unfold analyzeText_try, model_generateContent, read_reply. run.
    destruct (gemini w (build_prompt title content)) as [[|[text|e']]|e']; run; try done.
    destruct (match_braces (trim text)); run; [|done].
    destruct (JSON_parse _) as [analysis|]; run; [|done]. by destruct (validate analysis). }
  destruct (analyzeText_try JSON_parse title content w) as [[a|e] w1]; run; eauto.
Qed.

Lemma analyzeText_try_collection (JSON_parse : jsstring → completion value)
    (title content : jsstring) (w : World) :
  collection (analyzeText_try JSON_parse title content w).2 = collection w.
Proof.
  unfold analyzeText_try, model_generateContent, read_reply. run.
  destruct (gemini w (build_prompt title content)) as [[|[text|e']]|e']; run; try done.
  destruct (match_braces (trim text)); run; [|done].
  destruct (JSON_parse _) as [analysis|]; run; [|done]. by destruct (validate analysis).
Qed.

(** ** [POST /api/analyze] *)

Lemma nonempty_true (s : jsstring) : nonempty s = true ↔ s ≠ [].
Proof. by destruct s. Qed.

Lemma nonempty_false (s : jsstring) : nonempty s = false ↔ s = [].
Proof. by destruct s. Qed.

Lemma save_to_database_returns (title content : jsstring) (a : Analysis) (w : World) :
  (save_to_database title content a w).1 = Normal ().
Proof.
  unfold save_to_database, new_News, save. run.
  destruct (store_fault _ _); run; [done|].
  by destruct (collection _ !! _).
Qed.

(** A valid request gets past the checks of the handler: the response is
    decided by the analysis alone. *)
Lemma post_analyze_valid (JSON_parse : jsstring → completion value)
    (req_body : value) (title content : jsstring) (w : World) :
  valid_request req_body title content →
  ∃ a w1 w2,
    analyzeText JSON_parse title content w = (Normal a, w1) ∧
    post_analyze JSON_parse req_body w =
      (Normal (if analysis_failed a
               then res_status_json 500
                      (ErrorBody (or_else (explanation a)
                                    (js "Analysis failed. Please try again.")) None)
               else res_json (AnalysisBody a)), w2) ∧
    (analysis_failed a = true → w2 = w1) ∧
    (analysis_failed a = false → w2 = (save_to_database title content a w1).2).
Proof.
  intros (Ht & Hc & Htt & Hct & Hlen).
  unfold post_analyze, post_analyze_try. run.
  rewrite Ht. run. rewrite Hc. run.
  apply nonempty_true in Htt as ->. apply nonempty_true in Hct as ->. run.
  destruct (Nat.ltb_spec (length content) 50) as [|_]; [lia|]. run.
  destruct (analyzeText_returns JSON_parse title content w) as (w1 & -> & _).
  set (a := match (analyzeText_try JSON_parse title content w).1 with
            | Normal a => a | Throw _ => degraded end).
  exists a, w1. run. destruct (analysis_failed a); run; [by eexists|].
  pose proof (save_to_database_returns title content a w1) as Hsave.
  destruct (save_to_database title content a w1) as [[[]|e] w2]; [|done].
  by eexists.
Qed.

(** Whatever fails inside [analyzeText], the caller is told the same. *)
Lemma stage_failure_response (JSON_parse : jsstring → completion value)
    (req_body : value) (title content : jsstring) (w : World) (e : Exception) :
  valid_request req_body title content →
  stage_failure JSON_parse (gemini w (build_prompt title content)) e →
  (analyzeText JSON_parse title content w).1 = Normal degraded ∧
  (post_analyze JSON_parse req_body w).1 =
    Normal (res_status_json 500 (ErrorBody fallback_message None)) ∧
  collection (post_analyze JSON_parse req_body w).2 = collection w.
Proof.
  intros Hvalid Hfail. apply analyzeText_try_fails in Hfail.
  destruct (post_analyze_valid JSON_parse req_body title content w Hvalid)
    as (a & w1 & w2 & Ha & -> & Hw2 & _).
  destruct (analyzeText_returns JSON_parse title content w) as (w1' & Ha' & Hcoll & _).
  rewrite Hfail in Ha'. rewrite Ha' in Ha. injection Ha as <- <-.
  rewrite Ha'. split_and!; [done..|].
  cbn. rewrite Hw2 by done. rewrite Hcoll. apply analyzeText_try_collection.
Qed.

(** C2.  A failure of the model call, of the extraction, of the parsing or
    of the validation makes [analyzeText] return the fixed sentinel, and the
    handler answer 500 with the generic message alone: nothing of the
    error that occurred reaches the response, and nothing is stored. *)
Theorem failure_gives_sentinel_and_generic_500
    (JSON_parse : jsstring → completion value)
    (req_body : value) (title content : jsstring) (w : World) (e : Exception) :
  valid_request req_body title content →
  stage_failure JSON_parse (gemini w (build_prompt title content)) e →
  (analyzeText JSON_parse title content w).1 =
    Normal {| isFake := false; confidence := of_Z 0;
              features := [js "Error: Content analysis failed"];
              explanation := js "The analysis service is currently experiencing issues. Please wait a moment and try again." |} ∧
  (post_analyze JSON_parse req_body w).1 =
    Normal {| status := 500;
              body := ErrorBody (js "The analysis service is currently experiencing issues. Please wait a moment and try again.") None |} ∧
  collection (post_analyze JSON_parse req_body w).2 = collection w.
Proof. apply stage_failure_response. Qed.

(** Discharges [valid_request] on a concrete request. *)
Ltac valid_request_by_computation :=
  unfold valid_request; split_and!; [reflexivity | reflexivity | done | done | vm_compute; lia].

Lemma failure_gives_sentinel_and_generic_500_witness :
  let w := world_with (Throw (new_Error "fetch failed")) store_up in
  let req_body := request (VStr bakery_title) (VStr filler_content) in
  (analyzeText JSONReader.parse bakery_title filler_content w).1 = Normal degraded ∧
  (post_analyze JSONReader.parse req_body w).1 =
    Normal (res_status_json 500 (ErrorBody fallback_message None)) ∧
  collection (post_analyze JSONReader.parse req_body w).2 = collection w.
Proof.
  intros w req_body.
  apply (failure_gives_sentinel_and_generic_500 JSONReader.parse req_body
           bakery_title filler_content w (new_Error "fetch failed")).
  - valid_request_by_computation.
  - apply call_throws.
Defined.

(** ** The validator *)

Lemma number_ltb_0 (q : Q) : number_ltb (Finite q) (of_Z 0) = false ↔ (0 <= q)%Q.
Proof.
  cbn. rewrite negb_false_iff. apply Qle_bool_iff.
Qed.

Lemma number_ltb_100 (q : Q) : number_ltb (of_Z 100) (Finite q) = false ↔ (q <= 100)%Q.
Proof.
  cbn. rewrite negb_false_iff. apply Qle_bool_iff.
Qed.

Lemma confidence_check (c : number) :
  number_ltb c (of_Z 0) || number_ltb (of_Z 100) c = false ↔
  confidence_in_range (VNum c).
Proof.
  unfold confidence_in_range. rewrite orb_false_iff. destruct c as [q| |].
  - rewrite number_ltb_0, number_ltb_100. split.
    + intros [? ?]. by exists q.
    + intros (q' & [= <-] & ? & ?). done.
  - split; [intros [_ [=]] | intros (q' & [=] & _)].
  - split; [intros [[=] _] | intros (q' & [=] & _)].
Qed.

Lemma validate_object (o : gmap jsstring value) :
  validate (VObj o) =
  match field o "isFake" with
  | VBool b =>
      match field o "confidence" with
      | VNum c =>
          if number_ltb c (of_Z 0) || number_ltb (of_Z 100) c
          then Throw (new_Error "Invalid confidence score")
          else
            match field o "features" with
            | VArr ((_ :: _) as fs) =>
                match field o "explanation" with
                | VStr e =>
                    if nonempty (trim e) then
                      trimmed ← map_trim fs;
                      Normal {| isFake := b; confidence := Math_round c;
                                features := filter (λ f, nonempty f = true) trimmed;
                                explanation := trim e |}
                    else Throw (new_Error "No explanation provided")
                | _ => Throw (new_Error "No explanation provided")
                end
            | _ => Throw (new_Error "No analysis features found")
            end
      | _ => Throw (new_Error "Invalid confidence score")
      end
  | _ => Throw (new_Error "Invalid analysis result")
  end.
Proof. reflexivity. Qed.

(** C3.  The validator looks at [isFake], [confidence], [features] and
    [explanation] in this order and stops at the first one that is wrong:
    an [isFake] that is no boolean, a [confidence] that is no number of
    [0,100], a [features] that is no non-empty list, an [explanation] that
    is no string or is blank.  Each is a validation error of its own, and
    the request that meets it is answered 500 with the generic message. *)
Theorem validator_fails_fast (o : gmap jsstring value) :
  (¬ is_boolean (field o "isFake") →
     validate (VObj o) = Throw (new_Error "Invalid analysis result")) ∧
  (is_boolean (field o "isFake") →
   ¬ confidence_in_range (field o "confidence") →
     validate (VObj o) = Throw (new_Error "Invalid confidence score")) ∧
  (is_boolean (field o "isFake") →
   confidence_in_range (field o "confidence") →
   ¬ nonempty_list (field o "features") →
     validate (VObj o) = Throw (new_Error "No analysis features found")) ∧
  (is_boolean (field o "isFake") →
   confidence_in_range (field o "confidence") →
   nonempty_list (field o "features") →
   ¬ nonblank_string (field o "explanation") →
     validate (VObj o) = Throw (new_Error "No explanation provided")) ∧
  (∀ (JSON_parse : jsstring → completion value) req_body title content w
     text candidate e,
     valid_request req_body title content →
     gemini w (build_prompt title content) = Normal (ResponseText (Normal text)) →
     match_braces (trim text) = Some candidate →
     JSON_parse candidate = Normal (VObj o) →
     validate (VObj o) = Throw e →
     (post_analyze JSON_parse req_body w).1 =
       Normal (res_status_json 500 (ErrorBody fallback_message None))).
Proof.
  rewrite validate_object. split_and!.
  - intros Hb. destruct (field o "isFake"); try done. destruct Hb. by eexists.
  - intros [b ->] Hc. destruct (field o "confidence") as [| | |c| | |]; try done.
    destruct (_ || _) eqn:E; [done|]. by apply confidence_check in E.
  - intros [b ->] (q & -> & H0 & H100) Hf.
    assert (number_ltb (Finite q) (of_Z 0) || number_ltb (of_Z 100) (Finite q) = false) as ->.
    { apply confidence_check. by exists q. }
    destruct (field o "features") as [| | | | |[|f fs]|]; try done.
    destruct Hf. by exists f, fs.
  - intros [b ->] (q & -> & H0 & H100) (f & fs & ->) He.
    assert (number_ltb (Finite q) (of_Z 0) || number_ltb (of_Z 100) (Finite q) = false) as ->.
    { apply confidence_check. by exists q. }
    destruct (field o "explanation") as [| | | |s| |]; try done.
    destruct (nonempty (trim s)) eqn:E; [|done].
    destruct He. exists s. split; [done|]. by apply nonempty_true.
  - intros JSON_parse req_body title content w text candidate e Hvalid Hreply Hmatch Hparse.
    rewrite <- validate_object. intros Hthrow.
    apply (stage_failure_response JSON_parse req_body title content w e Hvalid).
    rewrite Hreply. by econstructor 6.
Qed.

Lemma validator_fails_fast_witness :
  validate (VObj (reply_object (VStr (js "no")) (VNum (of_Z 85))
                    (VArr [VStr (js "finding 1")]) (VStr (js "because"))))
    = Throw (new_Error "Invalid analysis result") ∧
  validate (VObj (reply_object (VBool true) (VNum (of_Z (-1)))
                    (VArr [VStr (js "finding 1")]) (VStr (js "because"))))
    = Throw (new_Error "Invalid confidence score") ∧
  validate (VObj (reply_object (VBool true) (VNum (of_Z 101))
                    (VArr [VStr (js "finding 1")]) (VStr (js "because"))))
    = Throw (new_Error "Invalid confidence score") ∧
  validate (VObj (reply_object (VBool true) (VStr (js "85"))
                    (VArr [VStr (js "finding 1")]) (VStr (js "because"))))
    = Throw (new_Error "Invalid confidence score") ∧
  validate (VObj (reply_object (VBool true) (VNum (of_Z 85))
                    (VArr []) (VStr (js "because"))))
    = Throw (new_Error "No analysis features found") ∧
  validate (VObj (reply_object (VBool true) (VNum (of_Z 85))
                    (VArr [VStr (js "finding 1")]) (VStr (js "   "))))
    = Throw (new_Error "No explanation provided").
Proof.
  assert (∀ v c f e, is_boolean (field (reply_object (VBool v) c f e) "isFake")) as Hbool.
  { intros. by exists v. }
  assert (∀ b f e, confidence_in_range (field (reply_object b (VNum (of_Z 85)) f e) "confidence"))
    as Hconf.
  { intros. exists (inject_Z 85). split_and!; [done | by vm_compute..]. }
  split_and!.
  - apply (proj1 (validator_fails_fast _)).
    intros [b H]. vm_compute in H. discriminate.
  - apply (proj1 (proj2 (validator_fails_fast _))); [apply Hbool|].
    intros (q & H & H0 & _). vm_compute in H. injection H as <-. by vm_compute in H0.
  - apply (proj1 (proj2 (validator_fails_fast _))); [apply Hbool|].
    intros (q & H & _ & H100). vm_compute in H. injection H as <-. by vm_compute in H100.
  - apply (proj1 (proj2 (validator_fails_fast _))); [apply Hbool|].
    intros (q & H & _). vm_compute in H. discriminate.
  - apply (proj1 (proj2 (proj2 (validator_fails_fast _)))); [apply Hbool | apply Hconf |].
    intros (f & fs & H). vm_compute in H. discriminate.
  - apply (proj1 (proj2 (proj2 (proj2 (validator_fails_fast _)))));
      [apply Hbool | apply Hconf | by eexists _, _ |].
    intros (s & H & Hs). vm_compute in H. injection H as <-. by apply Hs.
Defined.

(** C6, amended.  When the title is a string or absent, and so is the
    content unless the title is blank: a missing or blank title or content,
    and a content of fewer than 50 characters, are answered 400, and the
    world is left as it was: no prompt is sent, nothing is stored. *)
Theorem blank_or_short_is_400 (JSON_parse : jsstring → completion value)
    (req_body title_v content_v : value) (w : World) :
  get req_body "title" = Normal title_v →
  get req_body "content" = Normal content_v →
  string_or_absent title_v →
  string_or_absent content_v ∨ blank title_v →
  blank title_v ∨ blank content_v ∨ shorter_than_50 content_v →
  ∃ msg, post_analyze JSON_parse req_body w =
           (Normal (res_status_json 400 (ErrorBody msg None)), w).
Proof.
  intros Ht Hc Htitle Hcontent Hcase.
  unfold post_analyze, post_analyze_try. run. rewrite Ht. run. rewrite Hc. run.
  assert (blank title_v ∨ ∃ t, title_v = VStr t ∧ trim t ≠ []) as [Hblank | (t & -> & Htt)].
  { destruct Htitle as [->| [->| [t ->]]]; [left; by left | left; right; by left |].
    destruct (decide (trim t = [])); [left; right; right; by exists t | right; by exists t]. }
  { destruct Hblank as [->| [->| (t & -> & Htt)]]; run; [by eexists..|].
    rewrite Htt. run. by eexists. }
  run. apply nonempty_true in Htt as Htt'. rewrite Htt'. run.
  assert (string_or_absent content_v) as Hcontent'.
  { destruct Hcontent as [|[|[|(t' & [= <-] & ?)]]]; done. }
  assert (blank content_v ∨ shorter_than_50 content_v) as Hcase'.
  { destruct Hcase as [Hb | [Hb | Hs]]; [| by left | by right].
    destruct Hb as [|[|(t' & [= <-] & ?)]]; done. }
  destruct Hcontent' as [->| [->| [c ->]]]; run; [by eexists..|].
  destruct (nonempty (trim c)) eqn:Ec; run; [|by eexists].
  destruct Hcase' as [[|[|(c' & [= <-] & Hcc)]] | (c' & [= <-] & Hlen)]; try done.
  - apply nonempty_true in Ec. done.
  - destruct (Nat.ltb_spec (length c) 50); [|lia]. run. by eexists.
Qed.

Lemma blank_or_short_is_400_witness :
  let w := world_with (replies "{}") store_up in
  ∃ msg, post_analyze JSONReader.parse (request (VStr bakery_title) (VStr (js "Too short."))) w =
           (Normal (res_status_json 400 (ErrorBody msg None)), w).
Proof.
  intros w.
  apply (blank_or_short_is_400 JSONReader.parse _ (VStr bakery_title) (VStr (js "Too short."))).
  - reflexivity.
  - reflexivity.
  - right; right. by eexists.
  - left. right; right. by eexists.
  - right; right. eexists. split; [reflexivity | vm_compute; lia].
Defined.

(** C6 as stated fails: a content of five characters under a numeric
    title is answered 500. *)
Lemma short_content_numeric_title_500 :
  shorter_than_50 (VStr (js "short")) ∧
  (post_analyze JSONReader.parse (request (VNum (of_Z 5)) (VStr (js "short")))
     (world_with (replies "{}") store_up)).1 =
    Normal {| status := 500;
              body := ErrorBody (js "Server error. Please try again later.")
                        (Some (js "title?.trim is not a function")) |}.
Proof. split; [eexists; split; [reflexivity | vm_compute; lia] | reflexivity]. Qed.

(** C10.  A title that is present and is not a string, or such a content
    under a non-blank title, makes the [trim] call throw: the answer is the
    500 of the outer [catch], with the message of the error as details, and
    neither the model nor the store is reached. *)
Theorem non_string_field_is_500 (JSON_parse : jsstring → completion value)
    (req_body title_v content_v : value) (w : World) :
  get req_body "title" = Normal title_v →
  get req_body "content" = Normal content_v →
  present_non_string title_v ∨
    (nonblank_string title_v ∧ present_non_string content_v) →
  ∃ details w',
    post_analyze JSON_parse req_body w =
      (Normal {| status := 500;
                 body := ErrorBody (js "Server error. Please try again later.")
                           (Some details) |}, w') ∧
    prompts w' = prompts w ∧ collection w' = collection w.
Proof.
  intros Ht Hc Hcase.
  unfold post_analyze, post_analyze_try. run. rewrite Ht. run. rewrite Hc. run.
  destruct Hcase as [Htitle | [(t & -> & Htt) Hcontent]].
  - destruct title_v; try done; run; by eexists _, _.
  - run. apply nonempty_true in Htt as ->. run.
    destruct content_v; try done; run; by eexists _, _.
Qed.

Lemma non_string_field_is_500_witness :
  let w := world_with (replies "{}") store_up in
  ∃ details w',
    post_analyze JSONReader.parse (request (VNum (of_Z 5)) (VStr filler_content)) w =
      (Normal {| status := 500;
                 body := ErrorBody (js "Server error. Please try again later.")
                           (Some details) |}, w') ∧
    prompts w' = prompts w ∧ collection w' = collection w.
Proof.
  intros w.
  apply (non_string_field_is_500 JSONReader.parse _ (VNum (of_Z 5)) (VStr filler_content)).
  - reflexivity.
  - reflexivity.
  - by left.
Defined.

(** ** The history endpoints *)

#[local] Instance newer_first_transitive : Transitive newer_first.
Proof. unfold newer_first. intros x y z. lia. Qed.

#[local] Instance newer_first_total : Total newer_first.
Proof. unfold newer_first. intros x y. lia. Qed.

Lemma recent_sorted (c : gmap (list N) News.doc) :
  let all := merge_sort newer_first (map_to_list c) in
  let docs := take 10 all in
  length docs = min 10 (size c) ∧
  StronglySorted newer_first docs ∧
  (∀ id d, (id, d) ∈ docs → c !! id = Some d) ∧
  NoDup docs.*1 ∧
  (∀ x y, x ∈ docs → c !! y.1 = Some y.2 → y ∉ docs → newer_first x y).
Proof.
  intros all docs.
  assert (all ≡ₚ map_to_list c) as Hperm by apply merge_sort_Permutation.
  assert (StronglySorted newer_first all) as Hsorted
    by (apply StronglySorted_merge_sort; apply _).
  assert (all = docs ++ drop 10 all) as Hsplit by (symmetry; apply take_drop).
  split_and!.
  - unfold docs. rewrite length_take, Hperm, length_map_to_list. done.
  - rewrite Hsplit in Hsorted. by apply StronglySorted_app_1_l in Hsorted.
  - intros id d Hin. apply elem_of_map_to_list. rewrite <- Hperm.
    rewrite Hsplit. apply elem_of_app. by left.
  - unfold docs. rewrite fmap_take.
    apply (sublist_NoDup _ (all.*1)); [|apply sublist_take].
    rewrite Hperm. apply NoDup_fst_map_to_list.
  - intros x [id d] Hx Hy Hnot. simpl in Hy.
    apply elem_of_map_to_list in Hy. rewrite <- Hperm, Hsplit in Hy.
    apply elem_of_app in Hy as [Hy|Hy]; [done|].
    rewrite Hsplit in Hsorted. by eapply StronglySorted_app_1_elem_of.
Qed.

Lemma history_docs_stored (w : World) (docs : list (list N * News.doc)) :
  (get_history w).1 = Normal (res_json (HistoryBody docs)) →
  ∀ id d, (id, d) ∈ docs → collection w !! id = Some d.
Proof.
  unfold get_history, find_sort_limit. run.
  destruct (store_fault w OpFind) as [e|]; run.
  - intros [= <-] id d Hin. by apply elem_of_nil in Hin.
  - intros [= <-]. apply recent_sorted.
Qed.

(** C8.  [GET /api/history] answers 200 in every world, with at most ten
    documents of the collection, no document twice, the newest first and
    none of the documents left out newer than one listed; the list is
    empty when the query fails. *)
Theorem history_lists_ten_newest (w : World) :
  ∃ docs,
    get_history w = (Normal {| status := 200; body := HistoryBody docs |}, w) ∧
    length docs ≤ 10 ∧
    StronglySorted newer_first docs ∧
    (∀ id d, (id, d) ∈ docs → collection w !! id = Some d) ∧
    NoDup docs.*1 ∧
    (store_fault w OpFind ≠ None → docs = []) ∧
    (store_fault w OpFind = None →
       length docs = min 10 (size (collection w)) ∧
       ∀ x y, x ∈ docs → collection w !! y.1 = Some y.2 → y ∉ docs →
              (News.createdAt y.2 ≤ News.createdAt x.2)%Z).
Proof.
  unfold get_history, find_sort_limit. run.
  destruct (store_fault w OpFind) as [e|]; run.
  - exists []. split_and!; try done.
    + simpl. lia.
    + constructor.
    + intros ?? Hin. by apply elem_of_nil in Hin.
    + constructor.
  - destruct (recent_sorted (collection w)) as (Hlen & Hsorted & Hin & Hnodup & Htop).
    eexists. split_and!; try done.
    rewrite Hlen. lia.
Qed.

Lemma hex_char_lower (d : N) :
  (d < 16)%N → is_hex_char (hex_char d) = true ∧ to_lower_hex (hex_char d) = hex_char d.
Proof.
  intros Hd. destruct d as [|p]; [done|].
  do 4 (destruct p as [p|p|]; try done); lia.
Qed.

Lemma hex_digits_lower (k : nat) (n : N) :
  length (hex_digits k n) = k ∧ forallb is_hex_char (hex_digits k n) = true ∧
  to_lower_hex <$> hex_digits k n = hex_digits k n.
Proof.
  revert n. induction k as [|k IH]; intros n; [done|]. cbn [hex_digits].
  destruct (IH (n / 16)%N) as (Hlen & Hhex & Hlower).
  destruct (hex_char_lower (n mod 16)%N) as [Hc Hl]; [by apply N.mod_lt|].
  rewrite length_app, forallb_app, fmap_app, Hlen, Hhex, Hlower. cbn.
  rewrite Hc, Hl. split_and!; [lia | done | done].
Qed.

(** The text of an ObjectId casts to itself. *)
Lemma cast_toHexString (n : N) : cast_ObjectId (toHexString n) = Some (toHexString n).
Proof.
  unfold cast_ObjectId, toHexString.
  destruct (hex_digits_lower 24 n) as (-> & -> & ->). done.
Qed.

(** C9, amended.  [DELETE /api/history/:id], by what the text of the id
    is and by what the store does.  A text that is no ObjectId (not 24
    hexadecimal digits) is answered 500, whatever is stored.  For a text
    that is one: with no document of that [_id] the answer is 404 and the
    world is unchanged; with one, stored under the lower-case spelling of
    the text, it is removed, the answer is 200 with [success: true], and a
    later listing does not show the identifier; when the store rejects the
    operation the answer is 500.  A 500 leaves the collection unchanged. *)
Theorem delete_by_id_cases (id : jsstring) (w : World) :
  (cast_ObjectId id = None →
     ∃ w', delete_history id w =
             (Normal {| status := 500;
                        body := ErrorBody (js "Failed to delete item")
                                  (Some (message (CastError id))) |}, w') ∧
           collection w' = collection w) ∧
  (∀ _id, cast_ObjectId id = Some _id →
     (length id = 24 ∧ forallb is_hex_char id = true ∧ _id = to_lower_hex <$> id) ∧
     (store_fault w (OpFindByIdAndDelete id) = None →
      collection w !! _id = None →
        delete_history id w =
          (Normal {| status := 404; body := ErrorBody (js "Item not found") None |}, w)) ∧
     (∀ d, store_fault w (OpFindByIdAndDelete id) = None →
      collection w !! _id = Some d →
        ∃ w', delete_history id w =
                (Normal {| status := 200;
                           body := SuccessBody (js "Item deleted successfully") |}, w') ∧
              collection w' = delete _id (collection w) ∧
              ∀ docs, (get_history w').1 = Normal (res_json (HistoryBody docs)) →
                      _id ∉ docs.*1) ∧
     (∀ e, store_fault w (OpFindByIdAndDelete id) = Some e →
        ∃ w', delete_history id w =
                (Normal {| status := 500;
                           body := ErrorBody (js "Failed to delete item")
                                     (Some (message e)) |}, w') ∧
              collection w' = collection w)).
Proof.
  unfold delete_history, findByIdAndDelete. split.
  - intros ->. run. by eexists.
  - intros _id Hcast. rewrite Hcast. split; [|split_and!].
    + unfold cast_ObjectId in Hcast.
      destruct (length id =? 24) eqn:Hlen; [|done].
      destruct (forallb is_hex_char id); [|done].
      apply Nat.eqb_eq in Hlen. by injection Hcast as <-.
    + intros Hfault Hnone. run. by rewrite Hfault, Hnone.
    + intros d Hfault Hsome. run. rewrite Hfault, Hsome. run.
      eexists. split_and!; [done..|].
      intros docs Hdocs Hin.
      pose proof (history_docs_stored _ docs Hdocs) as Hstored.
      apply list_elem_of_fmap in Hin as ([id' d'] & -> & Hin).
      apply Hstored in Hin. cbn in Hin. by rewrite lookup_delete_eq in Hin.
    + intros e Hfault. run. rewrite Hfault. run. by eexists.
Qed.

(** ** Results that pass the validator *)

Lemma Math_round_nearest (q : Q) :
  (0 <= q)%Q → (q <= 100)%Q →
  ∃ z : Z, Math_round (Finite q) = of_Z z ∧ (0 ≤ z ≤ 100)%Z ∧
           (inject_Z z - (1 # 2) <= q)%Q ∧ (q < inject_Z z + (1 # 2))%Q.
Proof.
  intros H0 H100. exists (Qfloor (q + (1 # 2))). split_and!; [done|..].
  - change 0%Z with (Qfloor 0). apply Qfloor_resp_le. lra.
  - change 100%Z with (Qfloor (100 + (1 # 2))). apply Qfloor_resp_le. lra.
  - pose proof (Qfloor_le (q + (1 # 2))). lra.
  - pose proof (Qlt_floor (q + (1 # 2))) as H. rewrite inject_Z_plus in H.
    change (inject_Z 1) with 1%Q in H. lra.
Qed.

Lemma map_trim_strings (fs : list (list N)) :
  map_trim (VStr <$> fs) = Normal (trim <$> fs).
Proof. induction fs as [|f fs IH]; [done|]. cbn -[trim]. by rewrite IH. Qed.

Lemma map_trim_Normal (l : list value) (ss : list (list N)) :
  map_trim l = Normal ss → ∃ fs, l = VStr <$> fs ∧ ss = trim <$> fs.
Proof.
  revert ss. induction l as [|v l IH]; intros ss; cbn -[trim].
  - intros [= <-]. by exists [].
  - destruct v as [| | | |s| |]; cbn -[trim]; try done.
    destruct (map_trim l) as [ss'|]; [|done]. intros [= <-].
    destruct (IH ss' eq_refl) as (fs & -> & ->). by exists (s :: fs).
Qed.

Lemma filter_nonempty_all (ss : list (list N)) :
  Forall (λ s, s ≠ []) ss → filter (λ f, nonempty f = true) ss = ss.
Proof.
  induction 1 as [|s ss Hs _ IH]; [done|].
  rewrite filter_cons_True by (by apply nonempty_true). by rewrite IH.
Qed.

(** What the validator does guarantee of a result it returns. *)
Lemma validate_guarantees (analysis : value) (a : Analysis) :
  validate analysis = Normal a →
  integer_in_0_100 (confidence a) ∧ Forall (λ f, f ≠ []) (features a) ∧
  explanation a ≠ [].
Proof.
  unfold validate.
  destruct (get analysis "isFake") as [[| |b| | | |]|]; try done. cbn -[trim filter].
  destruct (get analysis "confidence") as [[| | |c| | |]|]; try done. cbn -[trim filter].
  destruct (_ || _) eqn:Hc; [done|]. apply confidence_check in Hc as (q & [= ->] & H0 & H100).
  destruct (get analysis "features") as [[| | | | |[|f fs]|]|]; try done. cbn -[trim filter].
  destruct (get analysis "explanation") as [[| | | |e| |]|]; try done. cbn -[trim filter].
  destruct (nonempty (trim e)) eqn:He; [|done].
  destruct (call_trim f) as [s|]; [|done]. destruct (map_trim fs) as [ss|]; [|done].
  cbn -[trim filter]. intros [= <-]. cbn -[trim filter]. split_and!.
  - destruct (Math_round_nearest q H0 H100) as (z & Hz & Hrange & _).
    exists z. by rewrite <- Hz.
  - apply Forall_forall. intros x Hx. apply list_elem_of_filter in Hx as [Hx _].
    by apply nonempty_true.
  - by apply nonempty_true.
Qed.

Lemma trim_braced (mid : list N) :
  trim (open_brace :: mid ++ [close_brace]) = open_brace :: mid ++ [close_brace].
Proof.
  unfold trim, trimEnd.
  change (trimStart (open_brace :: mid ++ [close_brace]))
    with (open_brace :: mid ++ [close_brace]).
  assert (reverse (open_brace :: mid ++ [close_brace])
          = close_brace :: reverse mid ++ [open_brace]) as ->.
  { by rewrite reverse_cons, reverse_app. }
  change (trimStart (close_brace :: reverse mid ++ [open_brace]))
    with (close_brace :: reverse mid ++ [open_brace]).
  by rewrite reverse_cons, reverse_app, reverse_involutive.
Qed.

Lemma match_braces_braced (mid : list N) :
  match_braces (open_brace :: mid ++ [close_brace]) = Some (open_brace :: mid ++ [close_brace]).
Proof.
  apply match_braces_Some. exists [], mid, [].
  split_and!; [done | apply not_elem_of_nil | apply not_elem_of_nil | done].
Qed.

(** C5, amended.  A reply that is exactly the text of an object whose
    [isFake] is a boolean, whose [confidence] is a number of [0,100],
    whose [features] is a non-empty list of strings none of which is blank
    and whose [explanation] is a string that is not blank, is read back as
    those fields: the strings trimmed, the confidence rounded to the
    nearest integer.  The result meets the invariants of an analysis
    result. *)
Theorem roundtrip_of_valid_reply (JSON_parse : jsstring → completion value)
    (mid : jsstring) (o : gmap jsstring value)
    (b : bool) (q : Q) (fs : list jsstring) (e : jsstring) (w : World) :
  let text := open_brace :: mid ++ [close_brace] in
  JSON_parse text = Normal (VObj o) →
  field o "isFake" = VBool b →
  field o "confidence" = VNum (Finite q) → (0 <= q)%Q → (q <= 100)%Q →
  field o "features" = VArr (VStr <$> fs) → fs ≠ [] → Forall (λ f, trim f ≠ []) fs →
  field o "explanation" = VStr e → trim e ≠ [] →
  ∃ z : Z,
    (inject_Z z - (1 # 2) <= q)%Q ∧ (q < inject_Z z + (1 # 2))%Q ∧
    let a := {| isFake := b; confidence := of_Z z;
                features := trim <$> fs; explanation := trim e |} in
    (read_reply JSON_parse text w).1 = Normal a ∧ AnalysisResult_invariants a.
Proof.
  intros text Hparse Hb Hc H0 H100 Hf Hne Hfs He Hee.
  destruct (Math_round_nearest q H0 H100) as (z & Hz & Hrange & Hlo & Hhi).
  exists z. split_and!; [done | done |]. cbv zeta. split.
  - subst text. unfold read_reply. cbv zeta.
    rewrite trim_braced, match_braces_braced. run.
    rewrite Hparse. run. rewrite validate_object, Hb, Hc.
    assert (number_ltb (Finite q) (of_Z 0) || number_ltb (of_Z 100) (Finite q) = false) as ->.
    { apply confidence_check. by exists q. }
    rewrite Hf, He. apply nonempty_true in Hee as ->.
    assert (filter (λ f, nonempty f = true) (trim <$> fs) = trim <$> fs) as Hkept.
    { apply filter_nonempty_all, Forall_fmap. by eapply Forall_impl. }
    pose proof (map_trim_strings fs) as Htrimmed.
    destruct fs as [|f fs']; [done|].
    cbn [fmap list_fmap] in Htrimmed |- *. rewrite Htrimmed.
    cbn [mbind completion_bind]. cbn [fmap list_fmap] in Hkept.
    by rewrite Hkept, Hz.
  - split_and!; cbn.
    + by exists z.
    + by destruct fs.
    + apply Forall_fmap. by eapply Forall_impl.
    + done.
Qed.

Lemma roundtrip_of_valid_reply_witness :
  ∃ z : Z,
    (inject_Z z - (1 # 2) <= 92)%Q ∧ (92 < inject_Z z + (1 # 2))%Q ∧
    let a := {| isFake := false; confidence := of_Z z;
                features := trim <$> [js "Verified by two sources"];
                explanation := trim (js "Claims match public records.") |} in
    (read_reply JSONReader.parse (open_brace :: bakery_reply_members ++ [close_brace])
       (world_with (replies "{}") store_up)).1 = Normal a ∧
    AnalysisResult_invariants a.
Proof.
  apply (roundtrip_of_valid_reply JSONReader.parse bakery_reply_members
           (reply_object (VBool false) (VNum (of_Z 92))
              (VArr [VStr (js "Verified by two sources")])
              (VStr (js "Claims match public records.")))).
  - vm_compute. reflexivity.
  - reflexivity.
  - reflexivity.
  - by vm_compute.
  - by vm_compute.
  - reflexivity.
  - done.
  - repeat constructor. by vm_compute.
  - reflexivity.
  - by vm_compute.
Defined.

(** C5 as stated fails: a feature that is a non-empty string of blanks is
    dropped from the result, and an explanation that is a non-empty string
    of blanks is refused. *)
Lemma roundtrip_fails_on_blank_strings :
  let w := world_with (replies "{}") store_up in
  JSONReader.parse (json_text "{'isFake': false, 'confidence': 92, 'features': [' x ', ' '], 'explanation': 'ok'}")
    = Normal (VObj (reply_object (VBool false) (VNum (of_Z 92))
                      (VArr [VStr (js " x "); VStr (js " ")]) (VStr (js "ok")))) ∧
  Forall (λ f, f ≠ []) [js " x "; js " "] ∧
  (read_reply JSONReader.parse
     (json_text "{'isFake': false, 'confidence': 92, 'features': [' x ', ' '], 'explanation': 'ok'}") w).1
    = Normal {| isFake := false; confidence := of_Z 92;
                features := [js "x"]; explanation := js "ok" |} ∧
  [js "x"] ≠ trim <$> [js " x "; js " "] ∧
  js " " ≠ [] ∧
  (read_reply JSONReader.parse
     (json_text "{'isFake': false, 'confidence': 92, 'features': ['x'], 'explanation': ' '}") w).1
    = Throw (new_Error "No explanation provided").
Proof.
  split_and!.
  - vm_compute. reflexivity.
  - by repeat constructor.
  - vm_compute. reflexivity.
  - by vm_compute.
  - done.
  - vm_compute. reflexivity.
Qed.

(** C1, at the input on which the code departs from it: every feature of
    the reply is blank, the validator lets the list through, the filter
    empties it, and the handler answers 200 with no feature at all. *)
Theorem blank_features_answered_200 :
  let req_body := request (VStr bakery_title) (VStr filler_content) in
  let w := world_with
             (replies "{'isFake': false, 'confidence': 50, 'features': [' '], 'explanation': 'ok'}")
             store_up in
  let a := {| isFake := false; confidence := of_Z 50; features := [];
              explanation := js "ok" |} in
  (post_analyze JSONReader.parse req_body w).1 =
    Normal {| status := 200; body := AnalysisBody a |} ∧
  ¬ AnalysisResult_invariants a.
Proof.
  split.
  - vm_compute. reflexivity.
  - by intros (_ & Hne & _).
Qed.

(** ** The save is best effort *)

(** [analyzeText] neither reads nor writes the store. *)
Lemma analyzeText_set_store_fault (JSON_parse : jsstring → completion value)
    (title content : jsstring) (fault : StoreOp → option Exception) (w : World) :
  analyzeText JSON_parse title content (set_store_fault fault w) =
  ((analyzeText JSON_parse title content w).1,
   set_store_fault fault (analyzeText JSON_parse title content w).2).
Proof.
  unfold analyzeText, analyzeText_try, model_generateContent, read_reply. run.
  destruct (gemini w (build_prompt title content)) as [[|[text|e']]|e']; run; try done.
  destruct (match_braces (trim text)); run; [|done].
  destruct (JSON_parse _) as [analysis|]; run; [|done]. by destruct (validate analysis).
Qed.

Lemma analyzeText_frame (JSON_parse : jsstring → completion value)
    (title content : jsstring) (w : World) :
  let w1 := (analyzeText JSON_parse title content w).2 in
  collection w1 = collection w ∧ object_ids w1 = object_ids w ∧
  constructed w1 = constructed w ∧ Date_now w1 = Date_now w.
Proof.
  unfold analyzeText, analyzeText_try, model_generateContent, read_reply. run.
  destruct (gemini w (build_prompt title content)) as [[|[text|e']]|e']; run; try done.
  destruct (match_braces (trim text)); run; [|done].
  destruct (JSON_parse _) as [analysis|]; run; [|done]. by destruct (validate analysis).
Qed.

(** C7.  For a request whose analysis is genuine, the store may accept the
    save or reject it: the answer is 200 with the analysis either way.  A
    rejected save leaves the collection as it was and one line on the error
    console; an accepted one adds the document. *)
Theorem save_outcome_leaves_response (JSON_parse : jsstring → completion value)
    (req_body : value) (title content : jsstring) (w w1 : World) (a : Analysis) :
  valid_request req_body title content →
  analyzeText JSON_parse title content w = (Normal a, w1) →
  analysis_failed a = false →
  ∀ fault : StoreOp → option Exception,
    let result := post_analyze JSON_parse req_body (set_store_fault fault w) in
    let entry := news_entry title content a w in
    result.1 = Normal {| status := 200; body := AnalysisBody a |} ∧
    (∀ e, fault (OpSave entry.1 entry.2) = Some e →
       collection result.2 = collection w ∧
       console result.2 =
         console w1 ++ [console_error_line (js "Database error:") (message e)]) ∧
    (fault (OpSave entry.1 entry.2) = None → collection w !! entry.1 = None →
       collection result.2 = <[entry.1 := entry.2]> (collection w) ∧
       console result.2 = console w1).
Proof.
  intros Hvalid Ha Hok fault result entry.
  destruct (post_analyze_valid JSON_parse req_body title content
              (set_store_fault fault w) Hvalid) as (a' & w1' & w2 & Ha' & Hpost & _ & Hw2).
  rewrite analyzeText_set_store_fault, Ha in Ha'. cbn in Ha'. injection Ha' as <- <-.
  specialize (Hw2 Hok). rewrite Hok in Hpost.
  destruct (analyzeText_frame JSON_parse title content w) as (Hcoll & Hids & Hn & Hnow).
  rewrite Ha in Hcoll, Hids, Hn, Hnow. cbn in Hcoll, Hids, Hn, Hnow.
  assert (news_entry title content a (set_store_fault fault w1) = entry) as Hentry.
  { unfold entry, news_entry. cbn. by rewrite Hids, Hn, Hnow. }
  subst result. rewrite Hpost. cbn [fst snd]. split_and!; [done|..].
  - intros e He. rewrite Hw2. unfold save_to_database, new_News, save. run.
    rewrite Hentry, He. run. by rewrite Hcoll.
  - intros Hnone Hfresh. rewrite Hw2. unfold save_to_database, new_News, save. run.
    rewrite Hentry, Hnone. run. rewrite Hcoll, Hfresh. by run.
Qed.

Lemma save_outcome_leaves_response_witness :
  let req_body := request (VStr bakery_title) (VStr filler_content) in
  let reply := Normal (ResponseText
                 (Normal (open_brace :: bakery_reply_members ++ [close_brace]))) in
  let a := {| isFake := false; confidence := of_Z 92;
              features := [js "Verified by two sources"];
              explanation := js "Claims match public records." |} in
  (post_analyze JSONReader.parse req_body
     (set_store_fault store_up (world_with reply store_up))).1
    = Normal {| status := 200; body := AnalysisBody a |} ∧
  (post_analyze JSONReader.parse req_body
     (set_store_fault store_down (world_with reply store_up))).1
    = Normal {| status := 200; body := AnalysisBody a |}.
Proof.
  intros req_body reply a.
  assert (valid_request req_body bakery_title filler_content) as Hvalid
    by valid_request_by_computation.
  assert (analysis_failed a = false) as Hok by reflexivity.
  pose proof (save_outcome_leaves_response JSONReader.parse req_body bakery_title
                filler_content (world_with reply store_up) _ a Hvalid eq_refl Hok) as H.
  split; [apply (H store_up) | apply (H store_down)].
Defined.

(** ** Worked examples *)

Example extractor_example :
  match_braces (trim (js "  Sure! {a} and {b} done.  ")) = Some (js "{a} and {b}") ∧
  match_braces (trim (js "} nothing to see {")) = None.
Proof. split; reflexivity. Qed.

(** The end-to-end example: the reply of the model comes back as the body
    of a 200, and is stored. *)
Example bakery_end_to_end :
  let w := world_with (Normal (ResponseText
             (Normal (open_brace :: bakery_reply_members ++ [close_brace])))) store_up in
  let r := post_analyze JSONReader.parse (request (VStr bakery_title) (VStr filler_content)) w in
  r.1 = Normal {| status := 200;
                  body := AnalysisBody {| isFake := false; confidence := of_Z 92;
                            features := [js "Verified by two sources"];
                            explanation := js "Claims match public records." |} |} ∧
  size (collection r.2) = 1.
Proof. split; vm_compute; reflexivity. Qed.

Example history_of_twelve :
  (get_history (archive_world 12 store_up)).1 =
    Normal {| status := 200;
              body := HistoryBody (archived <$> [11; 10; 9; 8; 7; 6; 5; 4; 3; 2]) |} ∧
  (get_history (archive_world 12 store_down)).1 =
    Normal {| status := 200; body := HistoryBody [] |}.
Proof. split; vm_compute; reflexivity. Qed.

Lemma history_lists_ten_newest_witness :
  ∃ docs,
    get_history (archive_world 12 store_up) =
      (Normal {| status := 200; body := HistoryBody docs |}, archive_world 12 store_up) ∧
    length docs ≤ 10 ∧
    StronglySorted newer_first docs.
Proof.
  destruct (history_lists_ten_newest (archive_world 12 store_up))
    as (docs & Hget & Hlen & Hsorted & _).
  exists docs. split; [exact Hget | split; [exact Hlen | exact Hsorted]].
Defined.

Lemma delete_by_id_cases_witness :
  let w := archive_world 12 store_up in
  (∃ w', delete_history (js "no such id") w =
           (Normal {| status := 500;
                      body := ErrorBody (js "Failed to delete item")
                                (Some (message (CastError (js "no such id")))) |}, w') ∧
         collection w' = collection w) ∧
  delete_history (toHexString 5) w =
    (Normal {| status := 404; body := ErrorBody (js "Item not found") None |}, w) ∧
  (∃ w', delete_history (js "0000000000000000000003EB") w =
           (Normal {| status := 200;
                      body := SuccessBody (js "Item deleted successfully") |}, w') ∧
         collection w' = delete (archived 3).1 (collection w)) ∧
  (∃ w', delete_history (archived 3).1 (archive_world 12 store_down) =
           (Normal {| status := 500;
                      body := ErrorBody (js "Failed to delete item")
                                (Some (js "buffering timed out")) |}, w') ∧
         collection w' = collection (archive_world 12 store_down)).
Proof.
  intros w. split_and!.
  - apply (proj1 (delete_by_id_cases (js "no such id") w)). reflexivity.
  - apply (proj1 (proj2 (proj2 (delete_by_id_cases (toHexString 5) w)
                                 (toHexString 5) eq_refl)));
      [reflexivity | vm_compute; reflexivity].
  - destruct (proj1 (proj2 (proj2 (proj2 (delete_by_id_cases
                (js "0000000000000000000003EB") w) (archived 3).1 eq_refl)))
                (archived 3).2) as (w' & Hdel & Hcoll & _);
      [reflexivity | vm_compute; reflexivity |].
    exists w'. split; [exact Hdel | exact Hcoll].
  - apply (proj2 (proj2 (proj2 (proj2 (delete_by_id_cases (archived 3).1
                   (archive_world 12 store_down)) (archived 3).1 eq_refl)))
             (new_Error "buffering timed out")).
    reflexivity.
Defined.

(** C9 as stated fails: no document has the id [no such id], the store
    is up, and the answer is 500, not 404. *)
Lemma delete_malformed_id_is_500 :
  let w := archive_world 12 store_up in
  collection w !! js "no such id" = None ∧
  store_fault w (OpFindByIdAndDelete (js "no such id")) = None ∧
  delete_history (js "no such id") w =
    (Normal {| status := 500;
               body := ErrorBody (js "Failed to delete item")
                         (Some (message (CastError (js "no such id")))) |},
     set_console [console_error_line (js "Delete error:")
                    (message (CastError (js "no such id")))] w).
Proof. split_and!; vm_compute; reflexivity. Qed.

(** * Further properties of the handlers *)

(** ** The shape of every answer of [POST /api/analyze] *)

Lemma analyzeText_try_validates (JSON_parse : list N → completion value)
    (title content : list N) (w : World) (a : Analysis) :
  (analyzeText_try JSON_parse title content w).1 = Normal a ↔
  reply_validates JSON_parse (gemini w (build_prompt title content)) a.
Proof.
  unfold reply_validates, analyzeText_try, model_generateContent, read_reply. run.
  destruct (gemini w (build_prompt title content)) as [[|[text|e']]|e'] eqn:Hreply; run;
    try (split; [done | intros (? & ? & ? & [=] & _)]).
  destruct (match_braces (trim text)) as [candidate|] eqn:Hmatch; run.
  - destruct (JSON_parse candidate) as [analysis|e'] eqn:Hparse; run.
    + destruct (validate analysis) as [a'|e'] eqn:Hvalid; run.
      * split.
        -- intros [= <-]. by exists text, candidate, analysis.
        -- intros (? & ? & ? & [= <-] & ? & ? & ?). congruence.
      * split; [done|]. intros (? & ? & ? & [= <-] & ? & ? & ?). congruence.
    + split; [done|]. intros (? & ? & ? & [= <-] & ? & ? & ?). congruence.
  - split; [done|]. intros (? & ? & ? & [= <-] & ? & ? & ?). congruence.
Qed.

(** [analyzeText] sends one prompt and touches neither the store nor the
    clock. *)
Lemma analyzeText_prompts (JSON_parse : list N → completion value)
    (title content : list N) (w : World) :
  let w1 := (analyzeText JSON_parse title content w).2 in
  prompts w1 = prompts w ++ [build_prompt title content] ∧
  store_fault w1 = store_fault w ∧ gemini w1 = gemini w.
Proof.
  unfold analyzeText, analyzeText_try, model_generateContent, read_reply. run.
  destruct (gemini w (build_prompt title content)) as [[|[text|e']]|e']; run; try done.
  destruct (match_braces (trim text)); run; [|done].
  destruct (JSON_parse _) as [analysis|]; run; [|done]. by destruct (validate analysis).
Qed.

Lemma save_to_database_frame (title content : list N) (a : Analysis) (w : World) :
  let w2 := (save_to_database title content a w).2 in
  prompts w2 = prompts w ∧ store_fault w2 = store_fault w ∧ gemini w2 = gemini w ∧
  (collection w2 = collection w ∨
   collection w !! (news_entry title content a w).1 = None ∧
   collection w2 = <[(news_entry title content a w).1 := (news_entry title content a w).2]>
                     (collection w)).
Proof.
  unfold save_to_database, new_News, save. run.
  destruct (store_fault _ _); run; [by auto|].
  destruct (collection _ !! _) eqn:E; run; [by auto|].
  split_and!; [done..|]. by right.
Qed.

(** The three ways a request is answered: the outer [catch], a 400, or
    the request is valid and the analysis decides. *)
Lemma post_analyze_cases (JSON_parse : list N → completion value)
    (req_body : value) (w : World) :
  (∃ details w',
     post_analyze JSON_parse req_body w =
       (Normal (res_status_json 500
                  (ErrorBody (js "Server error. Please try again later.") (Some details))),
        w') ∧
     prompts w' = prompts w ∧ collection w' = collection w) ∨
  (∃ msg, post_analyze JSON_parse req_body w =
            (Normal (res_status_json 400 (ErrorBody msg None)), w)) ∨
  (∃ title content, valid_request req_body title content).
Proof.
  unfold post_analyze, post_analyze_try, valid_request. run.
  destruct (get req_body "title") as [title_v|e] eqn:Ht; run.
  2: { left. eexists _, _. split_and!; reflexivity. }
  destruct (get req_body "content") as [content_v|e] eqn:Hc; run.
  2: { left. eexists _, _. split_and!; reflexivity. }
  destruct title_v as [| | | |title| |]; run.
  1,2: (right; left; eexists; reflexivity).
  1,2,4,5: (left; eexists _, _; split_and!; reflexivity).
  destruct (nonempty (trim title)) eqn:Htt; run; [|right; left; eexists; reflexivity].
  destruct content_v as [| | | |content| |]; run.
  1,2: (right; left; eexists; reflexivity).
  1,2,4,5: (left; eexists _, _; split_and!; reflexivity).
  destruct (nonempty (trim content)) eqn:Hct; run; [|right; left; eexists; reflexivity].
  destruct (Nat.ltb_spec (length content) 50); run; [right; left; eexists; reflexivity|].
  right; right. exists title, content. split_and!; try done; by apply nonempty_true.
Qed.

(** What [analyzeText] returns is the sentinel or a validated reply. *)
Lemma analyzeText_result (JSON_parse : list N → completion value)
    (title content : list N) (w w1 : World) (a : Analysis) :
  analyzeText JSON_parse title content w = (Normal a, w1) →
  a = degraded ∧ (∃ e, stage_failure JSON_parse (gemini w (build_prompt title content)) e) ∨
  reply_validates JSON_parse (gemini w (build_prompt title content)) a.
Proof.
  intros Ha.
  destruct (analyzeText_returns JSON_parse title content w) as (w1' & Ha' & _).
  rewrite Ha in Ha'. injection Ha' as -> _.
  destruct (analyzeText_try JSON_parse title content w).1 as [a'|e] eqn:Htry.
  - right. by apply analyzeText_try_validates in Htry.
  - left. split; [done|]. exists e. by apply analyzeText_try_fails.
Qed.

Lemma reply_validates_validated (JSON_parse : list N → completion value)
    (reply : completion GenerateContentResult) (a : Analysis) :
  reply_validates JSON_parse reply a → validated a.
Proof.
  intros (text & candidate & analysis & _ & _ & _ & Hvalid).
  by apply validate_guarantees in Hvalid.
Qed.

(** X1.  [analyzeText] never throws.  What it returns is the fixed
    sentinel or a result with an integer confidence between 0 and 100, no
    empty feature and a non-empty explanation; the collection is left as
    it was. *)
Theorem analyzeText_sentinel_or_validated (JSON_parse : list N → completion value)
    (title content : list N) (w : World) :
  ∃ a w1, analyzeText JSON_parse title content w = (Normal a, w1) ∧
          (a = degraded ∨ validated a) ∧
          collection w1 = collection w.
Proof.
  destruct (analyzeText_returns JSON_parse title content w) as (w1 & Ha & Hcoll & _).
  eexists _, w1. split; [exact Ha|]. split.
  - destruct (analyzeText_result _ _ _ _ _ _ Ha) as [[-> _]|Hv]; [by left | right].
    by eapply reply_validates_validated.
  - rewrite Hcoll. apply analyzeText_try_collection.
Qed.

(** X2.  The handler of [POST /api/analyze] answers every request, whatever
    the body, the model and the store do: no exception leaves it, and the
    status is 200, 400 or 500. *)
Theorem post_analyze_always_responds (JSON_parse : list N → completion value)
    (req_body : value) (w : World) :
  ∃ r w', post_analyze JSON_parse req_body w = (Normal r, w') ∧
          (status r = 200 ∨ status r = 400 ∨ status r = 500).
Proof.
  destruct (post_analyze_cases JSON_parse req_body w)
    as [(details & w' & -> & _) | [(msg & ->) | (title & content & Hvalid)]].
  - eexists _, _. split; [done|]. cbn. auto.
  - eexists _, _. split; [done|]. cbn. auto.
  - destruct (post_analyze_valid JSON_parse req_body title content w Hvalid)
      as (a & w1 & w2 & _ & -> & _).
    eexists _, _. split; [done|]. destruct (analysis_failed a); cbn; auto.
Qed.

(** X3.  A 200 of [POST /api/analyze] carries a validated analysis: an
    integer confidence between 0 and 100, no empty feature, a non-empty
    explanation, and a first feature, if there is one, that does not start
    with [Error:]. *)
Theorem ok_body_is_validated (JSON_parse : list N → completion value)
    (req_body : value) (w w' : World) (r : Response) :
  post_analyze JSON_parse req_body w = (Normal r, w') →
  status r = 200 →
  ∃ a, body r = AnalysisBody a ∧ validated a ∧ analysis_failed a = false.
Proof.
  intros Hpost Hstatus.
  destruct (post_analyze_cases JSON_parse req_body w)
    as [(details & w0 & Hp & _) | [(msg & Hp) | (title & content & Hvalid)]].
  - rewrite Hp in Hpost. injection Hpost as <- _. done.
  - rewrite Hp in Hpost. injection Hpost as <- _. done.
  - destruct (post_analyze_valid JSON_parse req_body title content w Hvalid)
      as (a & w1 & w2 & Ha & Hp & _).
    rewrite Hp in Hpost. injection Hpost as <- _.
    destruct (analysis_failed a) eqn:Hfailed; [done|].
    exists a. split_and!; [done| |done].
    destruct (analyzeText_result _ _ _ _ _ _ Ha) as [[-> _]|Hv]; [done|].
    by eapply reply_validates_validated.
Qed.

Lemma ok_body_is_validated_witness :
  let w := world_with (Normal (ResponseText
             (Normal (open_brace :: bakery_reply_members ++ [close_brace])))) store_up in
  let result := post_analyze JSONReader.parse
                  (request (VStr bakery_title) (VStr filler_content)) w in
  ∃ r, result.1 = Normal r ∧ status r = 200 ∧
       ∃ a, body r = AnalysisBody a ∧ validated a ∧ analysis_failed a = false.
Proof.
  intros w result.
  destruct result as [[r|e] w'] eqn:Hresult; [|by vm_compute in Hresult].
  assert (status r = 200) as Hstatus.
  { vm_compute in Hresult. by injection Hresult as <- _. }
  exists r. split; [reflexivity|]. split; [exact Hstatus|].
  exact (ok_body_is_validated JSONReader.parse _ w w' r Hresult Hstatus).
Defined.

(** X4.  [POST /api/analyze] only ever adds to the collection: every
    document stored before the request is stored, unchanged, after it, and
    an answer other than 200 leaves the collection as it was. *)
Theorem post_analyze_keeps_documents (JSON_parse : list N → completion value)
    (req_body : value) (w : World) :
  let result := post_analyze JSON_parse req_body w in
  keeps_documents (collection w) (collection result.2) ∧
  (∀ r, result.1 = Normal r → status r ≠ 200 →
        collection result.2 = collection w).
Proof.
  intros result. subst result.
  destruct (post_analyze_cases JSON_parse req_body w)
    as [(details & w0 & -> & _ & Hcoll) | [(msg & ->) | (title & content & Hvalid)]];
    cbn [fst snd].
  - rewrite Hcoll. split; [by intros ?? | done].
  - split; [by intros ?? | done].
  - destruct (post_analyze_valid JSON_parse req_body title content w Hvalid)
      as (a & w1 & w2 & Ha & -> & Hfailed & Hsaved). cbn [fst snd].
    destruct (analyzeText_frame JSON_parse title content w) as (Hcoll & _).
    rewrite Ha in Hcoll. cbn in Hcoll.
    destruct (analysis_failed a).
    + rewrite Hfailed, Hcoll by done. split; [by intros ?? | done].
    + rewrite Hsaved by done.
      destruct (save_to_database_frame title content a w1) as (_ & _ & _ & [-> | [Hfresh ->]]).
      * rewrite Hcoll. split; [by intros ?? |]. by intros r [= <-].
      * rewrite Hcoll in Hfresh |- *. split; [| by intros r [= <-]].
        intros id d Hid. rewrite lookup_insert_ne; [done|]. congruence.
Qed.

(** X5.  A request that passes the checks of the handler is never answered
    400, and the model is called exactly once for it, with the prompt built
    from the title and the content as they were sent: the 50 characters are
    counted before any trimming, and nothing is trimmed in the prompt. *)
Theorem valid_request_sends_one_prompt (JSON_parse : list N → completion value)
    (req_body : value) (title content : list N) (w : World) :
  valid_request req_body title content →
  ∃ r w', post_analyze JSON_parse req_body w = (Normal r, w') ∧
          (status r = 200 ∨ status r = 500) ∧
          prompts w' = prompts w ++ [build_prompt title content].
Proof.
  intros Hvalid.
  destruct (post_analyze_valid JSON_parse req_body title content w Hvalid)
    as (a & w1 & w2 & Ha & -> & Hfailed & Hsaved).
  destruct (analyzeText_prompts JSON_parse title content w) as (Hprompts & _).
  rewrite Ha in Hprompts. cbn in Hprompts.
  eexists _, _. split; [done|]. destruct (analysis_failed a).
  - split; [by right|]. by rewrite Hfailed.
  - split; [by left|]. rewrite Hsaved by done.
    destruct (save_to_database_frame title content a w1) as (-> & _). done.
Qed.

Lemma valid_request_sends_one_prompt_witness :
  let w := world_with (replies "{}") store_up in
  length (trim padded_content) < 50 ∧
  ∃ r w', post_analyze JSONReader.parse (request (VStr bakery_title) (VStr padded_content)) w
            = (Normal r, w') ∧
          (status r = 200 ∨ status r = 500) ∧
          prompts w' = prompts w ++ [build_prompt bakery_title padded_content].
Proof.
  intros w. split; [vm_compute; lia|].
  apply (valid_request_sends_one_prompt JSONReader.parse _ bakery_title padded_content w).
  unfold valid_request. split_and!; [reflexivity | reflexivity | done | done | vm_compute; lia].
Defined.

(** X6.  The sentinel is recognised by its text alone: when the reply of
    the model passes validation and its first feature starts with
    [Error:], the handler answers 500 with the explanation of the model as
    the error, and stores nothing. *)
Theorem error_prefixed_feature_is_500 (JSON_parse : list N → completion value)
    (req_body : value) (title content : list N) (w : World) (a : Analysis) :
  valid_request req_body title content →
  reply_validates JSON_parse (gemini w (build_prompt title content)) a →
  analysis_failed a = true →
  (post_analyze JSON_parse req_body w).1 =
    Normal {| status := 500; body := ErrorBody (explanation a) None |} ∧
  collection (post_analyze JSON_parse req_body w).2 = collection w.
Proof.
  intros Hvalid Hreply Hfailed.
  pose proof (reply_validates_validated _ _ _ Hreply) as (_ & _ & Hexpl).
  apply analyzeText_try_validates in Hreply.
  destruct (post_analyze_valid JSON_parse req_body title content w Hvalid)
    as (a' & w1 & w2 & Ha & -> & Hw2 & _).
  destruct (analyzeText_returns JSON_parse title content w) as (w1' & Ha' & Hcoll & _).
  rewrite Hreply in Ha'. rewrite Ha' in Ha. injection Ha as <- <-.
  rewrite Hfailed. cbn [fst snd]. split.
  - unfold or_else. by apply nonempty_true in Hexpl as ->.
  - rewrite Hw2 by done. rewrite Hcoll. apply analyzeText_try_collection.
Qed.

Lemma error_prefixed_feature_is_500_witness :
  let w := world_with
             (replies "{'isFake': true, 'confidence': 97, 'features': ['Error: the dateline is wrong'], 'explanation': 'The article misdates the event.'}")
             store_up in
  let req_body := request (VStr bakery_title) (VStr filler_content) in
  (post_analyze JSONReader.parse req_body w).1 =
    Normal {| status := 500;
              body := ErrorBody (js "The article misdates the event.") None |} ∧
  collection (post_analyze JSONReader.parse req_body w).2 = collection w.
Proof.
  intros w req_body.
  apply (error_prefixed_feature_is_500 JSONReader.parse req_body bakery_title
           filler_content w
           {| isFake := true; confidence := of_Z 97;
              features := [js "Error: the dateline is wrong"];
              explanation := js "The article misdates the event." |}).
  - unfold valid_request. split_and!; [reflexivity | reflexivity | done | done | vm_compute; lia].
  - eexists _, _, _. split_and!; [reflexivity | vm_compute; reflexivity
                                 | vm_compute; reflexivity | vm_compute; reflexivity].
  - reflexivity.
Defined.

(** X7.  The two messages of a 400, and which one wins: a title or a
    content that is missing or blank gets the message that both are
    required, also when the content is short as well; the message that the
    content is too short is for a non-blank title and a non-blank content
    of fewer than 50 characters. *)
Theorem messages_of_400 (JSON_parse : list N → completion value)
    (req_body title_v content_v : value) (w : World) :
  get req_body "title" = Normal title_v →
  get req_body "content" = Normal content_v →
  (blank title_v ∨ nonblank_string title_v ∧ blank content_v →
     (post_analyze JSON_parse req_body w).1 =
       Normal {| status := 400;
                 body := ErrorBody (js "Both title and content are required and cannot be empty") None |}) ∧
  (nonblank_string title_v → nonblank_string content_v → shorter_than_50 content_v →
     (post_analyze JSON_parse req_body w).1 =
       Normal {| status := 400;
                 body := ErrorBody (js "Content is too short. Please provide more text for accurate analysis.") None |}).
Proof.
  intros Ht Hc.
  unfold post_analyze, post_analyze_try. run. rewrite Ht. run. rewrite Hc. run. split.
  - intros [Hblank | [(t & -> & Htt) Hblank]].
    + destruct Hblank as [-> | [-> | (t & -> & Htt)]]; run; [done..|]. by rewrite Htt.
    + run. apply nonempty_true in Htt as ->. run.
      destruct Hblank as [-> | [-> | (c & -> & Hcc)]]; run; [done..|]. by rewrite Hcc.
  - intros (t & -> & Htt) (c & -> & Hcc) (c' & [= <-] & Hlen). run.
    apply nonempty_true in Htt as ->. apply nonempty_true in Hcc as ->. run.
    destruct (Nat.ltb_spec (length c) 50); [done | lia].
Qed.

Lemma messages_of_400_witness :
  let w := world_with (replies "{}") store_up in
  (post_analyze JSONReader.parse (request (VStr bakery_title) (VStr (js "   "))) w).1 =
    Normal {| status := 400;
              body := ErrorBody (js "Both title and content are required and cannot be empty") None |} ∧
  (post_analyze JSONReader.parse (request (VStr bakery_title) (VStr (js "Too short."))) w).1 =
    Normal {| status := 400;
              body := ErrorBody (js "Content is too short. Please provide more text for accurate analysis.") None |}.
Proof.
  intros w. split.
  - apply (proj1 (messages_of_400 JSONReader.parse
                    (request (VStr bakery_title) (VStr (js "   ")))
                    (VStr bakery_title) (VStr (js "   ")) w eq_refl eq_refl)).
    right. split; [by eexists | right; right; by eexists].
  - apply (proj2 (messages_of_400 JSONReader.parse
                    (request (VStr bakery_title) (VStr (js "Too short.")))
                    (VStr bakery_title) (VStr (js "Too short.")) w eq_refl eq_refl)).
    + by eexists.
    + by eexists.
    + eexists. split; [reflexivity | vm_compute; lia].
Defined.

(** X8.  The reason of a failure is kept for the operator: when the [try]
    block of [analyzeText] fails with an error, the last line on the
    console is [Analysis error:] with the message of that error. *)
Theorem failure_reason_is_logged (JSON_parse : list N → completion value)
    (title content : list N) (w : World) (e : Exception) :
  stage_failure JSON_parse (gemini w (build_prompt title content)) e →
  last (console (analyzeText JSON_parse title content w).2) =
    Some (console_error_line (js "Analysis error:") (message e)).
Proof.
  intros Hfail. apply analyzeText_try_fails in Hfail.
  unfold analyzeText. run.
  destruct (analyzeText_try JSON_parse title content w) as [[a|e'] w1]; [done|].
  cbn in Hfail. injection Hfail as ->. run. by rewrite last_snoc.
Qed.

Lemma failure_reason_is_logged_witness :
  last (console (analyzeText JSONReader.parse bakery_title filler_content
                   (world_with (replies "The article looks fine to me.") store_up)).2) =
    Some (console_error_line (js "Analysis error:") (js "Could not parse AI response")).
Proof.
  apply (failure_reason_is_logged JSONReader.parse bakery_title filler_content
           (world_with (replies "The article looks fine to me.") store_up)
           (new_Error "Could not parse AI response")).
  apply extraction_fails. reflexivity.
Defined.

(** ** How the endpoints compose *)

(** A genuine analysis that the store accepts: the answer and the world
    after it. *)
Lemma post_analyze_saved (JSON_parse : list N → completion value)
    (req_body : value) (title content : list N) (w : World) (a : Analysis) :
  let entry := news_entry title content a w in
  valid_request req_body title content →
  reply_validates JSON_parse (gemini w (build_prompt title content)) a →
  analysis_failed a = false →
  store_fault w (OpSave entry.1 entry.2) = None →
  collection w !! entry.1 = None →
  ∃ w', post_analyze JSON_parse req_body w = (Normal (res_json (AnalysisBody a)), w') ∧
        collection w' = <[entry.1 := entry.2]> (collection w) ∧
        store_fault w' = store_fault w.
Proof.
  intros entry Hvalid Hreply Hok Hfault Hfresh.
  apply analyzeText_try_validates in Hreply.
  destruct (post_analyze_valid JSON_parse req_body title content w Hvalid)
    as (a' & w1 & w2 & Ha & -> & _ & Hw2).
  destruct (analyzeText_returns JSON_parse title content w) as (w1' & Ha' & _).
  rewrite Hreply in Ha'. rewrite Ha' in Ha. injection Ha as <- <-.
  rewrite Hok. specialize (Hw2 Hok).
  destruct (analyzeText_frame JSON_parse title content w) as (Hcoll & Hids & Hn & Hnow).
  destruct (analyzeText_prompts JSON_parse title content w) as (_ & Hsf & _).
  rewrite Ha' in Hcoll, Hids, Hn, Hnow, Hsf. cbn in Hcoll, Hids, Hn, Hnow, Hsf.
  assert (news_entry title content a w1' = entry) as Hentry.
  { unfold entry, news_entry. by rewrite Hids, Hn, Hnow. }
  exists w2. split; [done|]. rewrite Hw2.
  unfold save_to_database, new_News, save. run.
  rewrite Hentry, Hsf, Hfault. run. rewrite Hcoll, Hfresh. run. by rewrite ?Hcoll, ?Hsf.
Qed.

Lemma newest_is_listed_first (c : gmap (list N) News.doc) (x : list N * News.doc) :
  c !! x.1 = Some x.2 →
  (∀ id d, c !! id = Some d → id ≠ x.1 → (News.createdAt d < News.createdAt x.2)%Z) →
  head (take 10 (merge_sort newer_first (map_to_list c))) = Some x.
Proof.
  intros Hx Holder.
  set (all := merge_sort newer_first (map_to_list c)).
  assert (all ≡ₚ map_to_list c) as Hperm by apply merge_sort_Permutation.
  assert (StronglySorted newer_first all) as Hsorted
    by (apply StronglySorted_merge_sort; apply _).
  assert (x ∈ all) as Hin.
  { rewrite Hperm. destruct x as [id d]. by apply elem_of_map_to_list. }
  destruct all as [|[id0 d0] rest] eqn:Hall; [by apply elem_of_nil in Hin|].
  cbn. f_equal.
  assert ((id0, d0) ∈ map_to_list c) as Hin0 by (rewrite <- Hperm; apply list_elem_of_here).
  apply elem_of_map_to_list in Hin0.
  destruct (decide (id0 = x.1)) as [->|Hne].
  - destruct x as [id d]. cbn in *. congruence.
  - exfalso. apply elem_of_cons in Hin as [Heq|Hin].
    + destruct x; cbn in *; congruence.
    + apply StronglySorted_cons in Hsorted as [Hall' _].
      rewrite Forall_forall in Hall'. specialize (Hall' x Hin).
      unfold newer_first in Hall'. cbn in Hall'.
      specialize (Holder id0 d0 Hin0 Hne). lia.
Qed.

(** X9.  Analyse, then list: when the model's reply is genuine, the store
    accepts the save and every document already stored is older than the
    clock, the 200 of [POST /api/analyze] is followed by a listing whose
    first document is the one just analysed: the title and the content of
    the request, the fields of the answer, the time of the clock. *)
Theorem analysed_then_listed_first (JSON_parse : list N → completion value)
    (req_body : value) (title content : list N) (w : World) (a : Analysis) :
  let entry := news_entry title content a w in
  valid_request req_body title content →
  reply_validates JSON_parse (gemini w (build_prompt title content)) a →
  analysis_failed a = false →
  store_fault w (OpSave entry.1 entry.2) = None →
  store_fault w OpFind = None →
  collection w !! entry.1 = None →
  (∀ id d, collection w !! id = Some d → (News.createdAt d < Date_now w)%Z) →
  ∃ w' docs,
    post_analyze JSON_parse req_body w =
      (Normal {| status := 200; body := AnalysisBody a |}, w') ∧
    (get_history w').1 = Normal {| status := 200; body := HistoryBody docs |} ∧
    head docs =
      Some (entry.1,
            {| News.title := title; News.content := content;
               News.isFake := isFake a; News.confidence := confidence a;
               News.features := features a; News.explanation := explanation a;
               News.createdAt := Date_now w |}).
Proof.
  intros entry Hvalid Hreply Hok Hsave Hfind Hfresh Holder.
  destruct (post_analyze_saved JSON_parse req_body title content w a
              Hvalid Hreply Hok Hsave Hfresh) as (w' & Hpost & Hcoll & Hsf).
  exists w'. eexists. split; [exact Hpost|].
  unfold get_history, find_sort_limit. run. rewrite Hsf, Hfind. run.
  split; [reflexivity|]. rewrite Hcoll.
  apply (newest_is_listed_first _ entry).
  - apply lookup_insert_eq.
  - intros id d Hid Hne. rewrite lookup_insert_ne in Hid by done.
    exact (Holder id d Hid).
Qed.

Lemma analysed_then_listed_first_witness :
  let w := set_collection (collection (archive_world 12 store_up))
             (world_with (Normal (ResponseText
                (Normal (open_brace :: bakery_reply_members ++ [close_brace])))) store_up) in
  let a := {| isFake := false; confidence := of_Z 92;
              features := [js "Verified by two sources"];
              explanation := js "Claims match public records." |} in
  ∃ w' docs,
    post_analyze JSONReader.parse (request (VStr bakery_title) (VStr filler_content)) w =
      (Normal {| status := 200; body := AnalysisBody a |}, w') ∧
    (get_history w').1 = Normal {| status := 200; body := HistoryBody docs |} ∧
    head docs =
      Some ((news_entry bakery_title filler_content a w).1,
            {| News.title := bakery_title; News.content := filler_content;
               News.isFake := false; News.confidence := of_Z 92;
               News.features := [js "Verified by two sources"];
               News.explanation := js "Claims match public records.";
               News.createdAt := Date_now w |}).
Proof.
  intros w a.
  apply (analysed_then_listed_first JSONReader.parse
           (request (VStr bakery_title) (VStr filler_content))
           bakery_title filler_content w a).
  - unfold valid_request. split_and!; [reflexivity | reflexivity | done | done | vm_compute; lia].
  - eexists _, _, _. split_and!; [reflexivity | vm_compute; reflexivity
                                 | vm_compute; reflexivity | vm_compute; reflexivity].
  - reflexivity.
  - reflexivity.
  - reflexivity.
  - vm_compute. reflexivity.
  - intros id d Hid.
    assert ((id, d) ∈ archived <$> seq 0 12) as Hin.
    { apply elem_of_list_to_map_2. exact Hid. }
    apply list_elem_of_fmap in Hin as (n & [= -> ->] & Hn).
    apply elem_of_seq in Hn. cbn. lia.
Defined.

(** X10.  Analyse, then delete: deleting the document a 200 has just stored
    is answered 200 and leaves the collection as it was before the
    analysis. *)
Theorem analysed_then_deleted (JSON_parse : list N → completion value)
    (req_body : value) (title content : list N) (w : World) (a : Analysis) :
  let entry := news_entry title content a w in
  valid_request req_body title content →
  reply_validates JSON_parse (gemini w (build_prompt title content)) a →
  analysis_failed a = false →
  store_fault w (OpSave entry.1 entry.2) = None →
  store_fault w (OpFindByIdAndDelete entry.1) = None →
  collection w !! entry.1 = None →
  ∃ w' w'',
    post_analyze JSON_parse req_body w =
      (Normal {| status := 200; body := AnalysisBody a |}, w') ∧
    delete_history entry.1 w' =
      (Normal {| status := 200; body := SuccessBody (js "Item deleted successfully") |}, w'') ∧
    collection w'' = collection w.
Proof.
  intros entry Hvalid Hreply Hok Hsave Hdelete Hfresh.
  destruct (post_analyze_saved JSON_parse req_body title content w a
              Hvalid Hreply Hok Hsave Hfresh) as (w' & Hpost & Hcoll & Hsf).
  exists w'. eexists. split; [exact Hpost|].
  assert (cast_ObjectId entry.1 = Some entry.1) as Hcast by apply cast_toHexString.
  unfold delete_history, findByIdAndDelete. rewrite Hcast. run.
  rewrite Hsf, Hdelete, Hcoll, lookup_insert_eq. run.
  split; [reflexivity|]. by apply delete_insert_id.
Qed.

Lemma analysed_then_deleted_witness :
  let w := world_with (Normal (ResponseText
             (Normal (open_brace :: bakery_reply_members ++ [close_brace])))) store_up in
  let a := {| isFake := false; confidence := of_Z 92;
              features := [js "Verified by two sources"];
              explanation := js "Claims match public records." |} in
  ∃ w' w'',
    post_analyze JSONReader.parse (request (VStr bakery_title) (VStr filler_content)) w =
      (Normal {| status := 200; body := AnalysisBody a |}, w') ∧
    delete_history (news_entry bakery_title filler_content a w).1 w' =
      (Normal {| status := 200; body := SuccessBody (js "Item deleted successfully") |}, w'') ∧
    collection w'' = collection w.
Proof.
  intros w a.
  apply (analysed_then_deleted JSONReader.parse
           (request (VStr bakery_title) (VStr filler_content))
           bakery_title filler_content w a).
  - unfold valid_request. split_and!; [reflexivity | reflexivity | done | done | vm_compute; lia].
  - eexists _, _, _. split_and!; [reflexivity | vm_compute; reflexivity
                                 | vm_compute; reflexivity | vm_compute; reflexivity].
  - reflexivity.
  - reflexivity.
  - reflexivity.
  - reflexivity.
Defined.

(** X11.  [DELETE /api/history/:id] answers every request with 200, 404 or
    500, touches no document but the one whose [_id] the text of the
    request casts to (none at all when the text is no ObjectId), and never
    calls the model. *)
Theorem delete_touches_one_document (id : list N) (w : World) :
  ∃ r w', delete_history id w = (Normal r, w') ∧
          (status r = 200 ∨ status r = 404 ∨ status r = 500) ∧
          (∀ _id, cast_ObjectId id ≠ Some _id →
                  collection w' !! _id = collection w !! _id) ∧
          (cast_ObjectId id = None → status r = 500) ∧
          prompts w' = prompts w.
Proof.
  unfold delete_history, findByIdAndDelete.
  destruct (cast_ObjectId id) as [oid|] eqn:Hcast; run.
  2: { eexists _, _. split; [done|]. cbn. auto. }
  destruct (store_fault w (OpFindByIdAndDelete id)); run.
  - eexists _, _. split; [done|]. cbn. split_and!; first [done | auto].
  - destruct (collection w !! oid) eqn:E; run.
    + eexists _, _. split; [done|]. cbn. split_and!; [auto | | done | done].
      intros _id Hne. rewrite lookup_delete_ne; [done|]. congruence.
    + eexists _, _. split; [done|]. cbn. split_and!; first [done | auto].
Qed.

Lemma delete_touches_one_document_witness :
  let w := archive_world 12 store_up in
  ∃ w', delete_history (js "0000000000000000000003EB") w =
          (Normal {| status := 200;
                     body := SuccessBody (js "Item deleted successfully") |}, w') ∧
        collection w' !! (archived 3).1 = None ∧
        collection w' !! (archived 4).1 = Some (archived 4).2.
Proof.
  intros w.
  destruct (delete_touches_one_document (js "0000000000000000000003EB") w)
    as (r & w' & Hdel & _ & Hframe & _).
  exists w'. split_and!.
  - rewrite Hdel. f_equal. f_equal.
    assert ((delete_history (js "0000000000000000000003EB") w).1 =
            Normal {| status := 200;
                      body := SuccessBody (js "Item deleted successfully") |}) as H
      by (vm_compute; reflexivity).
    rewrite Hdel in H. by injection H.
  - assert (collection (delete_history (js "0000000000000000000003EB") w).2
              !! (archived 3).1 = None) as H by (vm_compute; reflexivity).
    by rewrite Hdel in H.
  - rewrite Hframe; [vm_compute; reflexivity|]. vm_compute. discriminate.
Defined.

(** X12.  Deleting twice: after a 200, the same request is answered 404 as
    long as the store does not reject it. *)
Theorem delete_twice_is_404 (id : list N) (w w' : World) (r : Response) :
  delete_history id w = (Normal r, w') →
  status r = 200 →
  store_fault w (OpFindByIdAndDelete id) = None ∧
  delete_history id w' =
    (Normal {| status := 404; body := ErrorBody (js "Item not found") None |}, w').
Proof.
  unfold delete_history, findByIdAndDelete.
  destruct (cast_ObjectId id) as [oid|] eqn:Hcast; run.
  2: { intros [= <- <-] [=]. }
  destruct (store_fault w (OpFindByIdAndDelete id)) eqn:Hfault; run.
  - intros [= <- <-] [=].
  - destruct (collection w !! oid) eqn:E; run; intros [= <- <-] Hstatus; [|done].
    split; [done|]. run. rewrite Hfault. run. by rewrite lookup_delete_eq.
Qed.

Lemma delete_twice_is_404_witness :
  ∃ w', delete_history (archived 3).1 (archive_world 12 store_up) =
          (Normal {| status := 200; body := SuccessBody (js "Item deleted successfully") |}, w') ∧
        delete_history (archived 3).1 w' =
          (Normal {| status := 404; body := ErrorBody (js "Item not found") None |}, w').
Proof.
  destruct (delete_history (archived 3).1 (archive_world 12 store_up)) as [[r|e] w'] eqn:Hdel;
    [|vm_compute in Hdel; discriminate].
  assert (r = {| status := 200; body := SuccessBody (js "Item deleted successfully") |}) as ->.
  { vm_compute in Hdel. injection Hdel as <- _. reflexivity. }
  exists w'. split; [reflexivity|].
  exact (proj2 (delete_twice_is_404 _ _ _ _ Hdel eq_refl)).
Defined.

(** ** More of the validator *)

Lemma map_trim_non_string (l : list value) :
  (∃ v, v ∈ l ∧ ∀ s, v ≠ VStr s) →
  ∃ err, map_trim l = Throw err ∧ kind err = TypeError.
Proof.
  induction l as [|f rest IH]; intros (v & Hin & Hv).
  - by apply elem_of_nil in Hin.
  - cbn -[trim]. destruct f as [| | | |s| |]; cbn -[trim]; try by eexists.
    apply elem_of_cons in Hin as [->|Hin]; [by destruct (Hv s)|].
    destruct IH as (err & -> & Hkind); [by exists v|]. by exists err.
Qed.

(** X13.  The elements of [features] are not checked to be strings: a
    reply that is valid but for a feature that is a number, a boolean,
    [null], a list or an object gets past the four checks and fails in the
    normalisation with a [TypeError]; the request is answered 500 with the
    generic message. *)
Theorem non_string_feature_is_500 (o : gmap (list N) value) (l : list value) :
  is_boolean (field o "isFake") →
  confidence_in_range (field o "confidence") →
  field o "features" = VArr l →
  nonblank_string (field o "explanation") →
  (∃ v, v ∈ l ∧ ∀ s, v ≠ VStr s) →
  (∃ err, validate (VObj o) = Throw err ∧ kind err = TypeError) ∧
  (∀ (JSON_parse : list N → completion value) req_body title content w text candidate,
     valid_request req_body title content →
     gemini w (build_prompt title content) = Normal (ResponseText (Normal text)) →
     match_braces (trim text) = Some candidate →
     JSON_parse candidate = Normal (VObj o) →
     (post_analyze JSON_parse req_body w).1 =
       Normal {| status := 500; body := ErrorBody fallback_message None |}).
Proof.
  intros [b Hb] (q & Hq & H0 & H100) Hl (e & He & Hee) Hbad.
  assert (∃ err, validate (VObj o) = Throw err ∧ kind err = TypeError) as (err & Herr & Hkind).
  { rewrite validate_object, Hb, Hq.
    assert (number_ltb (Finite q) (of_Z 0) || number_ltb (of_Z 100) (Finite q) = false) as ->.
    { apply confidence_check. by exists q. }
    rewrite Hl, He. destruct l as [|f fs].
    { destruct Hbad as (v & Hin & _). by apply elem_of_nil in Hin. }
    apply nonempty_true in Hee as ->.
    destruct (map_trim_non_string (f :: fs) Hbad) as (err & -> & Hkind). by exists err. }
  split; [by exists err|].
  intros JSON_parse req_body title content w text candidate Hvalid Hreply Hmatch Hparse.
  apply (stage_failure_response JSON_parse req_body title content w err Hvalid).
  rewrite Hreply. by econstructor 6.
Qed.

Lemma non_string_feature_is_500_witness :
  let o := reply_object (VBool false) (VNum (of_Z 85))
             (VArr [VStr (js "finding 1"); VNum (of_Z 2)]) (VStr (js "because")) in
  ∃ err, validate (VObj o) = Throw err ∧ kind err = TypeError.
Proof.
  intros o.
  apply (non_string_feature_is_500 o [VStr (js "finding 1"); VNum (of_Z 2)]).
  - by exists false.
  - exists (inject_Z 85). split_and!; [done | by vm_compute..].
  - reflexivity.
  - exists (js "because"). split; [reflexivity | by vm_compute].
  - exists (VNum (of_Z 2)). split; [|done]. apply list_elem_of_further, list_elem_of_here.
Defined.

(** *** Trimming twice *)

Lemma trimStart_idemp (s : list N) : trimStart (trimStart s) = trimStart s.
Proof.
  induction s as [|c s IH]; [done|]. cbn [trimStart].
  destruct (is_white_space c) eqn:E; [done|]. cbn [trimStart]. by rewrite E.
Qed.

Lemma trimStart_app_cons (pre rest : list N) (c : N) :
  is_white_space c = false →
  trimStart (pre ++ c :: rest) = trimStart pre ++ c :: rest.
Proof.
  intros Hc. induction pre as [|p pre IH]; cbn [app trimStart].
  - by rewrite Hc.
  - by destruct (is_white_space p).
Qed.

Lemma trimEnd_app_cons (pre post : list N) (c : N) :
  is_white_space c = false →
  trimEnd (pre ++ c :: post) = pre ++ c :: trimEnd post.
Proof.
  intros Hc. unfold trimEnd.
  rewrite reverse_app, reverse_cons, <- app_assoc. cbn [app].
  rewrite trimStart_app_cons by done.
  by rewrite reverse_app, reverse_cons, reverse_involutive, <- app_assoc.
Qed.

Lemma trimEnd_nil : trimEnd [] = [].
Proof. reflexivity. Qed.

Lemma trim_cases (s : list N) :
  trim s = [] ∨ ∃ c r, trimStart s = c :: r ∧ is_white_space c = false ∧
                       trim s = c :: trimEnd r.
Proof.
  unfold trim. destruct (trimStart s) as [|c r] eqn:E; [by left|]. right.
  exists c, r. split; [done|].
  assert (is_white_space c = false) as Hc.
  { pose proof (trimStart_idemp s) as H. rewrite E in H. cbn [trimStart] in H.
    destruct (is_white_space c); [|done].
    exfalso. assert (length (trimStart r) ≤ length r) as Hlen.
    { clear. induction r as [|x r IH]; [done|]. cbn [trimStart].
      destruct (is_white_space x); cbn; lia. }
    rewrite H in Hlen. cbn in Hlen. lia. }
  split; [done|]. by apply (trimEnd_app_cons [] r c).
Qed.

Lemma trimEnd_idemp (s : list N) : trimEnd (trimEnd s) = trimEnd s.
Proof. unfold trimEnd. by rewrite reverse_involutive, trimStart_idemp. Qed.

Lemma trim_idemp (s : list N) : trim (trim s) = trim s.
Proof.
  destruct (trim_cases s) as [-> | (c & r & _ & Hc & ->)]; [done|].
  unfold trim. cbn [trimStart]. rewrite Hc.
  pose proof (trimEnd_app_cons [] (trimEnd r) c Hc) as H. cbn [app] in H.
  by rewrite H, trimEnd_idemp.
Qed.

Lemma Math_round_integer (z : Z) : Math_round (of_Z z) = of_Z z.
Proof.
  unfold Math_round, of_Z. do 2 f_equal.
  pose proof (Qfloor_le (inject_Z z + (1 # 2))) as Hle.
  pose proof (Qlt_floor (inject_Z z + (1 # 2))) as Hlt.
  set (f := Qfloor (inject_Z z + (1 # 2))) in *.
  rewrite inject_Z_plus in Hlt. change (inject_Z 1) with 1%Q in Hlt.
  destruct (Z.lt_trichotomy f z) as [H|[H|H]]; [|done|].
  - assert (f + 1 <= z)%Z as H' by lia. rewrite Zle_Qle in H'.
    rewrite inject_Z_plus in H'. change (inject_Z 1) with 1%Q in H'. lra.
  - assert (z + 1 <= f)%Z as H' by lia. rewrite Zle_Qle in H'.
    rewrite inject_Z_plus in H'. change (inject_Z 1) with 1%Q in H'. lra.
Qed.

(** A result of the validator is in normal form. *)
Lemma validate_normal_form (analysis : value) (a : Analysis) :
  validate analysis = Normal a →
  (∃ z : Z, confidence a = of_Z z ∧ (0 ≤ z ≤ 100)%Z) ∧
  Forall (λ f, f ≠ [] ∧ trim f = f) (features a) ∧
  explanation a ≠ [] ∧ trim (explanation a) = explanation a.
Proof.
  unfold validate.
  destruct (get analysis "isFake") as [[| |b| | | |]|]; try done. cbn -[trim filter map_trim].
  destruct (get analysis "confidence") as [[| | |c| | |]|]; try done. cbn -[trim filter map_trim].
  destruct (_ || _) eqn:Hc; [done|]. apply confidence_check in Hc as (q & [= ->] & H0 & H100).
  destruct (get analysis "features") as [[| | | | |[|f fs]|]|]; try done. cbn -[trim filter map_trim].
  destruct (get analysis "explanation") as [[| | | |e| |]|]; try done. cbn -[trim filter map_trim].
  destruct (nonempty (trim e)) eqn:He; [|done].
  destruct (map_trim (f :: fs)) as [ss|] eqn:Hss; [|done].
  cbn -[trim filter map_trim]. intros [= <-].
  cbn -[trim filter map_trim]. split_and!.
  - destruct (Math_round_nearest q H0 H100) as (z & Hz & Hrange & _). by exists z.
  - apply map_trim_Normal in Hss as (fs' & _ & ->).
    apply Forall_forall. intros x Hx. apply list_elem_of_filter in Hx as [Hx Hin].
    split; [by apply nonempty_true|].
    apply list_elem_of_fmap in Hin as (y & -> & _). apply trim_idemp.
  - by apply nonempty_true.
  - apply trim_idemp.
Qed.

(** X14.  Normalising is idempotent: the object of a result of the
    validator, read again by the validator, gives the same result when it
    has a feature; when it has none, the validator refuses its own
    output. *)
Theorem validate_own_output (analysis : value) (a : Analysis) :
  validate analysis = Normal a →
  validate (VObj (analysis_object a)) =
    match features a with
    | [] => Throw (new_Error "No analysis features found")
    | _ :: _ => Normal a
    end.
Proof.
  intros Hvalid.
  destruct (validate_normal_form analysis a Hvalid)
    as ((z & Hz & Hrange) & Hfeatures & Hexpl & Htrim).
  rewrite validate_object.
  change (field (analysis_object a) "isFake") with (VBool (isFake a)).
  change (field (analysis_object a) "confidence") with (VNum (confidence a)).
  change (field (analysis_object a) "features") with (VArr (VStr <$> features a)).
  change (field (analysis_object a) "explanation") with (VStr (explanation a)).
  cbv beta iota.
  assert (number_ltb (confidence a) (of_Z 0) || number_ltb (of_Z 100) (confidence a) = false)
    as ->.
  { apply confidence_check. rewrite Hz. exists (inject_Z z).
    split_and!; [done | | ]; unfold Qle; cbn; lia. }
  destruct a as [b c fs e]. cbn [features explanation isFake confidence] in *.
  destruct fs as [|f fs]; [done|].
  rewrite Htrim. apply nonempty_true in Hexpl as ->.
  pose proof (map_trim_strings (f :: fs)) as Hm. cbn [fmap list_fmap] in Hm |- *.
  rewrite Hm. cbn [mbind completion_bind].
  assert (trim <$> (f :: fs) = f :: fs) as Hsame.
  { clear -Hfeatures. induction Hfeatures as [|x l [_ Hx] _ IH]; [done|].
    cbn [fmap list_fmap] in *. by rewrite Hx, IH. }
  cbn [fmap list_fmap] in Hsame. rewrite Hsame.
  rewrite filter_nonempty_all by (eapply Forall_impl; [exact Hfeatures | by intros ? [? _]]).
  by rewrite Hz, Math_round_integer.
Qed.

Lemma validate_own_output_witness :
  let a := {| isFake := true; confidence := of_Z 86;
              features := [js "a"]; explanation := js "because" |} in
  validate (VObj (analysis_object a)) = Normal a.
Proof.
  intros a.
  exact (validate_own_output
           (VObj (reply_object (VBool true) (VNum (Finite (171 # 2)))
                    (VArr [VStr (js " a "); VStr (js "  ")]) (VStr (js " because "))))
           a eq_refl).
Defined.

(** ** More of the extractor and of the prompt *)

Lemma read_reply_result (JSON_parse : list N → completion value) (text : list N) (w : World) :
  (read_reply JSON_parse text w).1 =
  match match_braces (trim text) with
  | Some candidate => JSON_parse candidate ≫= validate
  | None => Throw (new_Error "Could not parse AI response")
  end.
Proof.
  unfold read_reply. cbv zeta.
  destruct (match_braces (trim text)) as [candidate|]; run; [|done].
  destruct (JSON_parse candidate) as [analysis|e]; run; [|done].
  by destruct (validate analysis).
Qed.

Lemma elem_of_trimStart (x : N) (s : list N) : x ∈ trimStart s → x ∈ s.
Proof.
  induction s as [|c s IH]; [done|]. cbn [trimStart].
  destruct (is_white_space c); [|done]. intros H. apply elem_of_cons. right. by apply IH.
Qed.

Lemma elem_of_trimEnd (x : N) (s : list N) : x ∈ trimEnd s → x ∈ s.
Proof.
  unfold trimEnd. rewrite elem_of_reverse. intros H%elem_of_trimStart.
  by rewrite elem_of_reverse in H.
Qed.

Lemma trim_around_braces (pre mid post : list N) :
  trim (pre ++ open_brace :: mid ++ close_brace :: post) =
  trimStart pre ++ open_brace :: mid ++ close_brace :: trimEnd post.
Proof.
  unfold trim. rewrite trimStart_app_cons by reflexivity.
  replace (trimStart pre ++ open_brace :: mid ++ close_brace :: post)
    with ((trimStart pre ++ open_brace :: mid) ++ close_brace :: post)
    by (by rewrite <- app_assoc).
  rewrite trimEnd_app_cons by reflexivity. by rewrite <- app_assoc.
Qed.

(** X15.  Prose around the object does not matter: a reply that wraps the
    text of an object in words before it that hold no opening brace and
    words after it that hold no closing brace is read exactly as the bare
    object is. *)
Theorem prose_around_reply_is_ignored (JSON_parse : list N → completion value)
    (pre mid post : list N) (w : World) :
  open_brace ∉ pre → close_brace ∉ post →
  (read_reply JSON_parse (pre ++ open_brace :: mid ++ close_brace :: post) w).1 =
  (read_reply JSON_parse (open_brace :: mid ++ [close_brace]) w).1.
Proof.
  intros Hpre Hpost. rewrite !read_reply_result.
  rewrite trim_around_braces, trim_braced, match_braces_braced.
  assert (match_braces (trimStart pre ++ open_brace :: mid ++ close_brace :: trimEnd post)
          = Some (open_brace :: mid ++ [close_brace])) as ->; [|done].
  apply match_braces_Some. exists (trimStart pre), mid, (trimEnd post).
  split_and!; [done | | | done].
  - intros H. by apply Hpre, elem_of_trimStart.
  - intros H. by apply Hpost, elem_of_trimEnd.
Qed.

Lemma prose_around_reply_is_ignored_witness :
  let w := world_with (replies "{}") store_up in
  (read_reply JSONReader.parse
     (js "Here is my analysis: " ++ open_brace :: bakery_reply_members
        ++ close_brace :: js " Hope this helps!") w).1 =
  (read_reply JSONReader.parse (open_brace :: bakery_reply_members ++ [close_brace]) w).1.
Proof.
  intros w.
  apply (prose_around_reply_is_ignored JSONReader.parse (js "Here is my analysis: ")
           bakery_reply_members (js " Hope this helps!") w).
  - vm_compute. intros H. repeat (apply elem_of_cons in H as [H|H]; [discriminate|]).
    by apply elem_of_nil in H.
  - vm_compute. intros H. repeat (apply elem_of_cons in H as [H|H]; [discriminate|]).
    by apply elem_of_nil in H.
Defined.

(** X16.  The prompt does not keep the title and the content apart: a
    content that goes on with a line [Content: ...] is sent to the model as
    the very prompt of the request in which that line belongs to the
    title. *)
Theorem prompt_is_ambiguous (a b c : list N) :
  let sep := line 8 (js "Content: ") in
  build_prompt a (b ++ sep ++ c) = build_prompt (a ++ sep ++ b) c ∧
  a ≠ a ++ sep ++ b.
Proof.
  intros sep. split.
  - unfold build_prompt, sep, line. by rewrite <- !app_assoc.
  - intros H. apply (f_equal length) in H. rewrite !length_app in H.
    unfold sep, line in H. rewrite !length_app in H. cbn in H. lia.
Qed.

(** ** Start-up *)


